(** * A shallow embedding of the data pipeline of InciReport.py

    The dashboard script loads a spreadsheet, cleans its headers, normalises
    the free-form incident times, derives an hour, a time range and a weekday
    per row, filters the rows by incident type and aggregates them for the
    charts.  This file embeds that pipeline and proves properties of it.

    Python strings are modelled as [list ascii], each [ascii] read as a
    Unicode code point below 256 (Latin-1), so [str.strip], [str.lower] and
    the regular expressions of [_strptime] are written out exactly on that
    range of characters.  Exceptions are modelled by a small error monad. *)

From Stdlib Require Import List Ascii String ZArith QArith Lia Bool.
Import ListNotations.
Open Scope char_scope.
Open Scope Z_scope.

(* ------------------------------------------------------------------ *)
(** ** Python strings *)

Definition str := list ascii.

(** A Python string literal, written with a Rocq string. *)
Definition py (s : string) : str := list_ascii_of_string s.

Definition code (c : ascii) : nat := nat_of_ascii c.

(** [str.isspace] on one character, for code points below 256. *)
Definition is_space (c : ascii) : bool :=
  let n := code c in
  ((9 <=? n) && (n <=? 13))%nat || ((28 <=? n) && (n <=? 32))%nat
  || (n =? 133)%nat || (n =? 160)%nat.

(** [str.lower] on one character, for code points below 256:
    A-Z and the Latin-1 capitals (except the multiplication sign). *)
Definition lower_char (c : ascii) : ascii :=
  let n := code c in
  if ((65 <=? n) && (n <=? 90))%nat
     || ((192 <=? n) && (n <=? 222) && negb (n =? 215))%nat
  then ascii_of_nat (n + 32) else c.

Definition lower (s : str) : str := map lower_char s.

Fixpoint lstrip (s : str) : str :=
  match s with
  | [] => []
  | c :: s' => if is_space c then lstrip s' else s
  end.

Definition rstrip (s : str) : str := rev (lstrip (rev s)).

(** [str.strip()] *)
Definition strip (s : str) : str := rstrip (lstrip s).

Fixpoint prefixb (p s : str) : bool :=
  match p, s with
  | [], _ => true
  | a :: p', b :: s' => Ascii.eqb a b && prefixb p' s'
  | _ :: _, [] => false
  end.

(** [sub in s] *)
Fixpoint contains (sub s : str) : bool :=
  prefixb sub s || match s with [] => false | _ :: s' => contains sub s' end.

Fixpoint str_eqb (a b : str) : bool :=
  match a, b with
  | [], [] => true
  | x :: a', y :: b' => Ascii.eqb x y && str_eqb a' b'
  | _, _ => false
  end.

(* ------------------------------------------------------------------ *)
(** ** Exceptions *)

Inductive exn := AttributeError | ValueError.

Inductive res (A : Type) : Type :=
| Ok (a : A)
| Raise (e : exn).
Arguments Ok {A} a.
Arguments Raise {A} e.

Definition bind {A B} (m : res A) (k : A -> res B) : res B :=
  match m with Ok a => k a | Raise e => Raise e end.

Notation "x <- m ;; k" := (bind m (fun x => k))
  (at level 61, m at next level, right associativity).

(* ------------------------------------------------------------------ *)
(** ** Spreadsheet cells *)

(** A cell as [pd.read_excel] produces it: a missing value ([None], [NaN]
    or [NaT]), a string, a number, a boolean, a [datetime.time] or a
    timestamp. *)
Inductive cell :=
| CNull
| CStr (s : str)
| CNum (q : Q)
| CBool (b : bool)
| CTime (h m s : Z)
| CTimestamp (y mo d h mi s : Z).

(** [pd.isnull] on a scalar. *)
Definition isnull (c : cell) : bool :=
  match c with CNull => true | _ => false end.

(** The method call [c.strip()]: only strings have the attribute. *)
Definition py_strip (c : cell) : res str :=
  match c with CStr s => Ok (strip s) | _ => Raise AttributeError end.

(* ------------------------------------------------------------------ *)
(** ** [pd.to_datetime(s, format=fmt)] on a string

    pandas matches the string against the regular expression that Python's
    [_strptime.TimeRE] builds from the format (compiled with IGNORECASE),
    requires the match to cover the whole string ([exact=True]) and then
    reads the hour, minute and second from the named groups. *)

Definition is_digit (c : ascii) : bool :=
  ((48 <=? code c) && (code c <=? 57))%nat.
Definition digit_in (lo hi : nat) (c : ascii) : bool :=
  ((48 + lo <=? code c) && (code c <=? 48 + hi))%nat.
Definition is_char (c0 : ascii) (c : ascii) : bool :=
  Ascii.eqb (lower_char c) (lower_char c0).

(** A regular-expression alternative [a1 a2 ... an] of single-character
    classes; a directive's pattern is a list of alternatives, in order. *)
Definition alt := list (ascii -> bool).

(** The patterns of [TimeRE] for the directives this program uses:
    - [%I]: [1[0-2]|0[1-9]|[1-9]]
    - [%M]: [[0-5]\d|\d]
    - [%H]: [2[0-3]|[0-1]\d|\d]
    - [%S]: [6[0-1]|[0-5]\d|\d]
    - [%p]: [am|pm] *)
Definition directive_re (d : ascii) : option (list alt) :=
  if Ascii.eqb d "I" then
    Some [[digit_in 1 1; digit_in 0 2]; [digit_in 0 0; digit_in 1 9]; [digit_in 1 9]]
  else if Ascii.eqb d "M" then
    Some [[digit_in 0 5; is_digit]; [is_digit]]
  else if Ascii.eqb d "H" then
    Some [[digit_in 2 2; digit_in 0 3]; [digit_in 0 1; is_digit]; [is_digit]]
  else if Ascii.eqb d "S" then
    Some [[digit_in 6 6; digit_in 0 1]; [digit_in 0 5; is_digit]; [is_digit]]
  else if Ascii.eqb d "p" then
    Some [[is_char "a"; is_char "m"]; [is_char "p"; is_char "m"]]
  else None.

Inductive tok :=
| TDir (d : ascii) (re : list alt)
| TLit (c : ascii).

(** [TimeRE.pattern]: the format string read as directives and literals;
    an unknown directive or a stray [%] is a [ValueError]. *)
Fixpoint parse_format (f : str) : res (list tok) :=
  match f with
  | [] => Ok []
  | "%" :: d :: f' =>
      if Ascii.eqb d "%" then
        (ts <- parse_format f' ;; Ok (TLit "%" :: ts))
      else
        match directive_re d with
        | Some re => ts <- parse_format f' ;; Ok (TDir d re :: ts)
        | None => Raise ValueError
        end
  | "%" :: [] => Raise ValueError
  | c :: f' => ts <- parse_format f' ;; Ok (TLit c :: ts)
  end.

Fixpoint match_alt (a : alt) (s : str) : option (str * str) :=
  match a, s with
  | [], _ => Some ([], s)
  | p :: a', c :: s' =>
      if p c then
        match match_alt a' s' with
        | Some (got, rest) => Some (c :: got, rest)
        | None => None
        end
      else None
  | _ :: _, [] => None
  end.

Definition captures := list (ascii * str).

(** All the ways the token sequence matches a prefix of [s], in the order
    a backtracking regular-expression engine tries them. *)
Fixpoint match_toks (ts : list tok) (s : str) : list (captures * str) :=
  match ts with
  | [] => [([], s)]
  | TLit c :: ts' =>
      match s with
      | x :: s' =>
          if is_char c x then match_toks ts' s' else []
      | [] => []
      end
  | TDir d re :: ts' =>
      flat_map (fun a =>
        match match_alt a s with
        | Some (got, rest) =>
            map (fun '(cs, r) => ((d, got) :: cs, r)) (match_toks ts' rest)
        | None => []
        end) re
  end.

(** [int()] of a string of decimal digits. *)
Definition py_int (s : str) : Z :=
  fold_left (fun acc c => acc * 10 + (Z.of_nat (code c) - 48)) s 0.

Fixpoint lookup_cap (d : ascii) (cs : captures) : option str :=
  match cs with
  | [] => None
  | (k, v) :: cs' => if Ascii.eqb k d then Some v else lookup_cap d cs'
  end.

(** The [found_dict] loop of [_parse_with_format], for the hour, minute
    and second fields (the date defaults to 1900-01-01). *)
Definition read_fields (cs : captures) : Z * Z * Z :=
  fold_left (fun '(h, m, sec) '(k, v) =>
    if Ascii.eqb k "H" then (py_int v, m, sec)
    else if Ascii.eqb k "I" then
      let hr := py_int v in
      let ampm := match lookup_cap "p" cs with Some p => lower p | None => [] end in
      if str_eqb ampm [] || str_eqb ampm (py "am") then
        ((if Z.eqb hr 12 then 0 else hr), m, sec)
      else if str_eqb ampm (py "pm") then
        ((if Z.eqb hr 12 then hr else hr + 12), m, sec)
      else (hr, m, sec)
    else if Ascii.eqb k "M" then (h, py_int v, sec)
    else if Ascii.eqb k "S" then (h, m, py_int v)
    else (h, m, sec)) cs (0, 0, 0).

(** A time of day of a timestamp. *)
Record time := mk_time { t_hour : Z; t_minute : Z; t_second : Z }.

(** The fields are turned into nanoseconds linearly, so the seconds 60 and
    61 admitted by [%S] carry into the next minute. *)
Definition time_of_fields (f : Z * Z * Z) : time :=
  let '(h, m, s) := f in
  let tot := (h * 3600 + m * 60 + s) mod 86400 in
  mk_time (tot / 3600) ((tot mod 3600) / 60) (tot mod 60).

Definition nat_strings : list str :=
  map py ["NaT"; "nat"; "NAT"; "nan"; "NaN"; "NAN"]%string.

(** [pd.to_datetime(s, format=fmt)] on one string: [Ok None] is [NaT]. *)
Definition to_datetime (fmt s : str) : res (option time) :=
  if (List.length s =? 0)%nat || existsb (str_eqb s) nat_strings then Ok None
  else
    ts <- parse_format fmt ;;
    match match_toks ts s with
    | (cs, rest) :: _ =>
        match rest with
        | [] => Ok (Some (time_of_fields (read_fields cs)))
        | _ :: _ => Raise ValueError        (* unconverted data remains *)
        end
    | [] => Raise ValueError                (* does not match format *)
    end.

Definition digit_char (n : Z) : ascii := ascii_of_nat (48 + Z.to_nat n).
Definition two_digits (n : Z) : str := [digit_char (n / 10); digit_char (n mod 10)].

(** [.strftime('%H:%M:%S')]; [NaT] has no [strftime]. *)
Definition strftime_hms (t : option time) : res str :=
  match t with
  | None => Raise ValueError
  | Some t =>
      Ok (two_digits (t_hour t) ++ py ":" ++ two_digits (t_minute t)
          ++ py ":" ++ two_digits (t_second t))
  end.

(* ------------------------------------------------------------------ *)
(** ** [standardize_time] *)

Definition Unknown : str := py "Unknown".

(** The body of the [try] block. *)
Definition standardize_time_body (time_str : cell) : res str :=
  if isnull time_str then Ok Unknown
  else
    t <- py_strip time_str ;;
    let t := lower t in
    if contains (py "am") t || contains (py "pm") t then
      d <- to_datetime (py "%I:%M%p") t ;; strftime_hms d
    else if contains (py "-") t then Ok Unknown
    else
      d <- to_datetime (py "%H:%M") t ;; strftime_hms d.

(** The bare [except:] turns every exception into ['Unknown']. *)
Definition standardize_time (time_str : cell) : str :=
  match standardize_time_body time_str with
  | Ok s => s
  | Raise _ => Unknown
  end.

(* ------------------------------------------------------------------ *)
(** ** [time_range] *)

Definition time_range (hour : Z) : str :=
  if hour <? 0 then Unknown
  else if (0 <=? hour) && (hour <? 6) then py "12am-6am"
  else if (6 <=? hour) && (hour <? 9) then py "6am-9am"
  else if (9 <=? hour) && (hour <? 12) then py "9am-12pm"
  else if (12 <=? hour) && (hour <? 15) then py "12pm-3pm"
  else if (15 <=? hour) && (hour <? 18) then py "3pm-6pm"
  else if (18 <=? hour) && (hour <? 21) then py "6pm-9pm"
  else py "9pm-12am".

(* ------------------------------------------------------------------ *)
(** ** Column names *)

Definition nl : ascii := ascii_of_nat 10.
Definition nbsp : ascii := ascii_of_nat 160.
Definition dq : ascii := ascii_of_nat 34.

(** [Series.str.replace(a, b)] for one character [a] and one character [b]. *)
Definition replace_char (a b : ascii) (s : str) : str :=
  map (fun c => if Ascii.eqb c a then b else c) s.

(** [df.columns.str.strip().str.replace('\n', ' ').str.replace('\xa0', ' ')] *)
Definition clean_header (h : str) : str :=
  replace_char nbsp " " (replace_char nl " " (strip h)).

Definition rename_mapping : list (str * str) :=
  [ (py "Time (AM or PM)", py "Incident Time");
    (py "Type of incident  *Must Call Police for asterisked/bold violations",
     py "Incident Type");
    (py "Legal Name of Patron (1) involved (put " ++ [dq] ++ py "Unknown" ++ [dq]
       ++ py " if unable to identify)", py "Patron 1 Name");
    (py "Patron (1) Email Address", py "Patron 1 Email");
    (py "Legal Name of Patron (2) involved (put " ++ [dq] ++ py "Unknown" ++ [dq]
       ++ py " if unable to identify)", py "Patron 2 Name");
    (py "Patron (2) Email Address ", py "Patron 2 Email");
    (py "Additional patron(s) and/or witnesses and contact information",
     py "Additional Contacts");
    (py ("Detailed description of incident (including activity at time of "
         ++ "incident). Please give as much information as possible. Example: "
         ++ "If a silver MacBook Pro was reported stolen, please describe the it...")%string,
     py "Description");
    (py "Action Taken", py "Action Taken");
    (py "Employee completing this form", py "Form Employee") ].

(** Dictionary lookup with string keys. *)
Fixpoint dict_get (k : str) (d : list (str * str)) : option str :=
  match d with
  | [] => None
  | (k', v) :: d' => if str_eqb k k' then Some v else dict_get k d'
  end.

(** [df.rename(columns=rename_mapping)] on one label. *)
Definition rename_column (h : str) : str :=
  match dict_get h rename_mapping with Some v => v | None => h end.

Definition normalize_columns (hs : list str) : list str :=
  map rename_column (map clean_header hs).

(* ------------------------------------------------------------------ *)
(** ** Rows and the derived columns *)

(** The columns of a loaded row that the pipeline reads; the contact and
    description columns are carried along untouched. *)
Record raw_row := mk_raw_row {
  raw_date : cell;
  raw_incident_time : cell;
  raw_incident_type : cell;
  raw_others : list cell }.

(** A calendar date (year, month, day). *)
Definition date := (Z * Z * Z)%type.

Record row := mk_row {
  r_date : option date;
  r_incident_time : cell;
  r_incident_type : cell;
  r_others : list cell;
  r_standardized_time : str;
  r_incident_hour : Z;
  r_day_of_week : option str;
  r_time_range : str }.

(** [pd.to_datetime(s, format='%H:%M:%S', errors='coerce')] on one string:
    a parse error becomes [NaT]. *)
Definition parse_hms (s : str) : option time :=
  match to_datetime (py "%H:%M:%S") s with
  | Ok t => t
  | Raise _ => None
  end.

(** [.dt.hour] followed by [.fillna(-1)]. *)
Definition incident_hour_of (std : str) : Z :=
  match parse_hms std with Some t => t_hour t | None => -1 end.

(** [.dt.day_name()]: the weekday of a Gregorian date. *)
Definition day_name (d : date) : str :=
  let '(y, m, dd) := d in
  let y' := if m <? 3 then y - 1 else y in
  let t := nth (Z.to_nat (m - 1)) [0; 3; 2; 5; 0; 3; 5; 1; 4; 6; 2; 4] 0 in
  let w := (y' + y' / 4 - y' / 100 + y' / 400 + t + dd) mod 7 in
  py (nth (Z.to_nat w)
        ["Sunday"; "Monday"; "Tuesday"; "Wednesday"; "Thursday"; "Friday";
         "Saturday"]%string EmptyString).

Section Derivation.

(** [pd.to_datetime(df['Date'], errors='coerce')] without a format: pandas
    guesses one format from the column ([date_format]) and parses every
    cell with it, a failure giving [NaT].  The guess and the parse are left
    abstract: nothing below depends on them. *)
Variable date_format : Type.
Variable guess_date_format : list cell -> date_format.
Variable parse_date : date_format -> cell -> option date.

Definition derive_row (f : date_format) (r : raw_row) : row :=
  let std := standardize_time (raw_incident_time r) in
  let hour := incident_hour_of std in
  let d := parse_date f (raw_date r) in
  mk_row d (raw_incident_time r) (raw_incident_type r) (raw_others r)
    std hour (option_map day_name d) (time_range hour).

(** Lines 47 to 74 of the script, column by column. *)
Definition derive (df : list raw_row) : list row :=
  let f := guess_date_format (map raw_date df) in
  map (derive_row f) df.

End Derivation.

(* ------------------------------------------------------------------ *)
(** ** The filter and the aggregations of the callbacks *)

(** [series == value] on one cell: only a string can equal a string. *)
Definition cell_eq_str (c : cell) (v : str) : bool :=
  match c with CStr s => str_eqb s v | _ => false end.

(** [df[df['Incident Type'] == selected_type] if selected_type != 'All' else df] *)
Definition filter_rows (df : list row) (selected_type : str) : list row :=
  if negb (str_eqb selected_type (py "All"))
  then filter (fun r => cell_eq_str (r_incident_type r) selected_type) df
  else df.

(** Counting rows per key, in order of first appearance; rows whose key is
    missing ([None]) are not counted, as pandas drops [NaN] keys. *)
Fixpoint add_key {K} (eqb : K -> K -> bool) (k : K) (acc : list (K * nat))
  : list (K * nat) :=
  match acc with
  | [] => [(k, 1%nat)]
  | (k', n) :: acc' =>
      if eqb k k' then (k', S n) :: acc' else (k', n) :: add_key eqb k acc'
  end.

Definition group_counts {K} (eqb : K -> K -> bool) (keys : list (option K))
  : list (K * nat) :=
  fold_left (fun acc ok => match ok with Some k => add_key eqb k acc | None => acc end)
    keys [].

Definition total_count {K} (g : list (K * nat)) : nat :=
  fold_right (fun kn n => (snd kn + n)%nat) 0%nat g.

(** One attempt of the pattern [\s*\(.*?\)] at the start of [s]: the
    rest of [s] after the match.  [.] does not match a newline. *)
Fixpoint lazy_to_close (s : str) : option str :=
  match s with
  | [] => None
  | c :: s' =>
      if Ascii.eqb c ")" then Some s'
      else if Ascii.eqb c nl then None
      else lazy_to_close s'
  end.

Definition paren_match_at (s : str) : option str :=
  match lstrip s with
  | c :: s' => if Ascii.eqb c "(" then lazy_to_close s' else None
  | [] => None
  end.

Fixpoint sub_parens_fuel (fuel : nat) (s : str) : str :=
  match fuel with
  | O => s
  | S fuel' =>
      match s with
      | [] => []
      | c :: s' =>
          match paren_match_at s with
          | Some rest => sub_parens_fuel fuel' rest
          | None => c :: sub_parens_fuel fuel' s'
          end
      end
  end.

(** [re.sub(r'\s*\(.*?\)', '', s)]: every match consumes at least one
    character, so [length s] steps suffice. *)
Definition sub_parens (s : str) : str := sub_parens_fuel (List.length s) s.

(** [.str.replace(r'\s*\(.*?\)', '', regex=True)] on one cell: a cell that
    is not a string becomes [NaN]. *)
Definition clean_type (c : cell) : option str :=
  match c with CStr s => Some (sub_parens s) | _ => None end.

(** Equality of two cells as Python's [==]. *)
Definition cell_eqb (a b : cell) : bool :=
  match a, b with
  | CStr x, CStr y => str_eqb x y
  | CNum p, CNum q => Qeq_bool p q
  | CBool x, CBool y => Bool.eqb x y
  | CBool x, CNum q | CNum q, CBool x => Qeq_bool q (if x then 1 else 0)%Q
  | CTime h m s, CTime h' m' s' => (h =? h') && (m =? m') && (s =? s')
  | CTimestamp y mo d h mi s, CTimestamp y' mo' d' h' mi' s' =>
      (y =? y') && (mo =? mo') && (d =? d') && (h =? h') && (mi =? mi') && (s =? s')
  | _, _ => false
  end.

Definition non_null (c : cell) : option cell :=
  if isnull c then None else Some c.

(** The data behind the five figures of [update_graphs].  The order in
    which pandas and plotly list the groups (by count, by key or by the
    day order) is presentation only and is not modelled. *)
Record graphs := mk_graphs {
  g_total : nat;                       (* len(filtered_df) *)
  g_type_counts : list (str * nat);    (* cleaned type, value_counts() *)
  g_hour_counts : list (Z * nat);      (* groupby('Incident Hour').size() *)
  g_range_counts : list (str * nat);   (* histogram of 'Time Range' *)
  g_day_counts : list (str * nat) }.   (* histogram of 'Day of Week' *)

Definition graphs_of (filtered_df : list row) : graphs :=
  mk_graphs
    (List.length filtered_df)
    (group_counts str_eqb (map (fun r => clean_type (r_incident_type r)) filtered_df))
    (group_counts Z.eqb (map (fun r => Some (r_incident_hour r)) filtered_df))
    (group_counts str_eqb (map (fun r => Some (r_time_range r)) filtered_df))
    (group_counts str_eqb (map r_day_of_week filtered_df)).

Definition update_graphs (df : list row) (selected_type : str) : graphs :=
  graphs_of (filter_rows df selected_type).

(** [px.pie(df, names='Incident Type')]: one slice per raw incident type of
    the whole data set, sized by its number of rows; the dropdown value is
    received and ignored. *)
Definition update_pie_chart (df : list row) (_ : str) : list (cell * nat) :=
  group_counts cell_eqb (map (fun r => non_null (r_incident_type r)) df).

(* ------------------------------------------------------------------ *)
(** ** Reference definitions, following the specification's words *)

(** The eight labels of the time ranges. *)
Definition time_range_labels : list str :=
  map py ["Unknown"; "12am-6am"; "6am-9am"; "9am-12pm"; "12pm-3pm"; "3pm-6pm";
          "6pm-9pm"; "9pm-12am"]%string.

(** The table of the specification: negative hours are [Unknown], and
    [lo <= hour < hi] gets the label of its row. *)
Definition spec_buckets : list (Z * Z * str) :=
  [ (0, 6, py "12am-6am"); (6, 9, py "6am-9am"); (9, 12, py "9am-12pm");
    (12, 15, py "12pm-3pm"); (15, 18, py "3pm-6pm"); (18, 21, py "6pm-9pm");
    (21, 24, py "9pm-12am") ].

Definition spec_time_range (hour : Z) : str :=
  if hour <? 0 then Unknown
  else match find (fun '(lo, hi, _) => (lo <=? hour) && (hour <? hi)) spec_buckets with
       | Some (_, _, l) => l
       | None => Unknown
       end.

Definition hms_str (h m s : Z) : str :=
  two_digits h ++ py ":" ++ two_digits m ++ py ":" ++ two_digits s.

(** A string of the form [HH:MM:SS]. *)
Definition is_hhmmss (s : str) : bool :=
  match s with
  | [h1; h2; c1; m1; m2; c2; s1; s2] =>
      is_digit h1 && is_digit h2 && Ascii.eqb c1 ":" && is_digit m1
      && is_digit m2 && Ascii.eqb c2 ":" && is_digit s1 && is_digit s2
  | _ => false
  end.

(** The header cleanup as the specification words it: newlines and
    non-breaking spaces of the trimmed header become ordinary spaces. *)
Definition spec_clean (h : str) : str :=
  map (fun c => if Ascii.eqb c nl || Ascii.eqb c nbsp then " " else c) (strip h).

(** A string with no whitespace at either end. *)
Definition no_edge_space (s : str) : bool :=
  match s with
  | [] => true
  | c :: _ => negb (is_space c) && negb (is_space (last s c))
  end.

(** A valid 12-hour input [H:MMam] / [H:MMpm]: the hour with or without a
    leading zero, the minute on two digits, the marker in any case. *)
Definition dec (h : Z) : str := if h <? 10 then [digit_char h] else two_digits h.

Definition mk12 (pad : bool) (h m : Z) (mer : str) : str :=
  (if pad then two_digits h else dec h) ++ py ":" ++ two_digits m ++ mer.

Definition meridiems : list str :=
  map py ["am"; "pm"; "AM"; "PM"; "Am"; "aM"; "Pm"; "pM"]%string.

Definition to_24h (h : Z) (mer : str) : Z :=
  if str_eqb (lower mer) (py "am") then (if h =? 12 then 0 else h)
  else (if h =? 12 then 12 else h + 12).

Definition zrange (lo : Z) (n : nat) : list Z := map (fun i => lo + Z.of_nat i) (seq 0 n).

Definition tok_keys (ts : list tok) : list ascii :=
  flat_map (fun t => match t with TDir d _ => [d] | TLit _ => [] end) ts.

Fixpoint count_some {A} (l : list (option A)) : nat :=
  match l with
  | [] => 0
  | Some _ :: l' => S (count_some l')
  | None :: l' => count_some l'
  end.

(** Checks evaluated over finite ranges in the proofs below. *)
Definition hms_roundtrip_ok (h m : Z) : bool :=
  match parse_hms (hms_str h m 0) with
  | Some t => (t_hour t =? h) && (t_minute t =? m) && (t_second t =? 0)
  | None => false
  end
  && (py_int (firstn 2 (hms_str h m 0)) =? h) && is_hhmmss (hms_str h m 0).

Definition twelve_hour_ok (pad : bool) (mer : str) (h m : Z) : bool :=
  let out := standardize_time (CStr (mk12 pad h m mer)) in
  str_eqb out (hms_str (to_24h h mer) m 0)
  && str_eqb (standardize_time (CStr out)) Unknown
  && str_eqb (standardize_time (CStr (firstn 5 out))) out.

Definition time_range_ok (h : Z) : bool :=
  str_eqb (time_range h) (spec_time_range h)
  && existsb (str_eqb (time_range h)) time_range_labels.

(** [df['Incident Type'].dropna().unique()]: the distinct present incident
    types, in order of first appearance (line 77). *)
Definition unique_step (acc : list cell) (c : cell) : list cell :=
  if isnull c || existsb (cell_eqb c) acc then acc else acc ++ [c].

Definition incident_types (df : list row) : list cell :=
  fold_left unique_step (map r_incident_type df) [].

(** The [category_orders] of the weekday figure. *)
Definition day_order : list str :=
  map py ["Monday"; "Tuesday"; "Wednesday"; "Thursday"; "Friday"; "Saturday";
          "Sunday"]%string.

(** The count listed for key [k] in a group count, 0 when it is absent. *)
Definition count_of {K} (eqb : K -> K -> bool) (k : K) (g : list (K * nat)) : nat :=
  match find (fun kn => eqb k (fst kn)) g with Some (_, n) => n | None => 0%nat end.

Fixpoint count_key {K} (eqb : K -> K -> bool) (k : K) (l : list (option K)) : nat :=
  match l with
  | [] => 0
  | Some k' :: l' => if eqb k k' then S (count_key eqb k l') else count_key eqb k l'
  | None :: l' => count_key eqb k l'
  end.

(** One step of [group_counts]. *)
Definition group_step {K} (eqb : K -> K -> bool) (acc : list (K * nat)) (ok : option K)
  : list (K * nat) :=
  match ok with Some k => add_key eqb k acc | None => acc end.

Definition twentyfour_ok (pad : bool) (h m : Z) : bool :=
  str_eqb (standardize_time
             (CStr ((if pad then two_digits h else dec h) ++ py ":" ++ two_digits m)))
          (hms_str h m 0).

Definition spaced_meridiem_ok (mer : str) (h m : Z) : bool :=
  str_eqb (standardize_time (CStr (dec h ++ py ":" ++ two_digits m ++ py " " ++ mer)))
          Unknown.

(* ------------------------------------------------------------------ *)
(** ** The end-to-end scenario of the specification *)

Definition ts_date_format : Type := unit.
Definition ts_guess (_ : list cell) : ts_date_format := tt.
(** A date parser that accepts timestamp cells only. *)
Definition ts_parse (_ : ts_date_format) (c : cell) : option date :=
  match c with CTimestamp y mo d _ _ _ => Some (y, mo, d) | _ => None end.

Definition scenario : list raw_row :=
  [ mk_raw_row (CTimestamp 2024 3 5 0 0 0) (CStr (py "2:15pm")) (CStr (py "Theft")) [];
    mk_raw_row CNull (CStr (py "08:30")) (CStr (py "Theft (minor)")) [];
    mk_raw_row (CTimestamp 2024 3 9 0 0 0) (CStr (py "lunch-break")) (CStr (py "Vandalism")) [] ].

Definition scenario_df : list row := derive ts_date_format ts_guess ts_parse scenario.

Example scenario_times :
  map r_standardized_time scenario_df = [py "14:15:00"; py "08:30:00"; Unknown].
Proof. reflexivity. Qed.
Example scenario_hours : map r_incident_hour scenario_df = [14; 8; -1].
Proof. reflexivity. Qed.
Example scenario_ranges :
  map r_time_range scenario_df = [py "12pm-3pm"; py "6am-9am"; Unknown].
Proof. reflexivity. Qed.
Example scenario_days :
  map r_day_of_week scenario_df = [Some (py "Tuesday"); None; Some (py "Saturday")].
Proof. reflexivity. Qed.
Example scenario_types :
  g_type_counts (update_graphs scenario_df (py "All"))
  = [(py "Theft", 2%nat); (py "Vandalism", 1%nat)].
Proof. reflexivity. Qed.
Example header_example :
  normalize_columns [py " Time" ++ [nl] ++ py "(AM or PM)"; py "Date" ++ [nbsp; nl]]
  = [py "Incident Time"; py "Date"].
Proof. reflexivity. Qed.

Example ex_pm : standardize_time (CStr (py "2:30pm")) = py "14:30:00".
Proof. reflexivity. Qed.
Example ex_24 : standardize_time (CStr (py "14:05")) = py "14:05:00".
Proof. reflexivity. Qed.
Example ex_range : standardize_time (CStr (py "9-10")) = Unknown.
Proof. reflexivity. Qed.
Example ex_bad : standardize_time (CStr (py "25:99")) = Unknown.
Proof. reflexivity. Qed.
Example ex_12am : standardize_time (CStr (py " 12:05AM ")) = py "00:05:00".
Proof. reflexivity. Qed.
Example ex_sec : standardize_time (CStr (py "14:30:00")) = Unknown.
Proof. reflexivity. Qed.

(* ================================================================== *)
(** * Lemmas *)

(** Name the quotient and the remainder of [a] by the constant [b]. *)
Ltac divmod_as a b q r :=
  pose proof (Z.div_mod a b ltac:(lia));
  pose proof (Z.mod_pos_bound a b ltac:(lia));
  set (q := a / b) in *; set (r := a mod b) in *; clearbody q r.

Lemma str_eqb_eq : forall a b, str_eqb a b = true <-> a = b.
Proof.
  induction a as [|x a IH]; destruct b as [|y b]; simpl;
    try (split; intro H; discriminate H).
  - tauto.
  - rewrite andb_true_iff, Ascii.eqb_eq, IH.
    split; [intros [-> ->]; reflexivity | intro H; injection H; tauto].
Qed.

Lemma zrange_forall : forall (f : Z -> bool) lo n,
  forallb f (zrange lo n) = true -> forall h, lo <= h < lo + Z.of_nat n -> f h = true.
Proof.
  intros f lo n Hall h Hh.
  rewrite forallb_forall in Hall; apply Hall.
  unfold zrange; apply in_map_iff.
  exists (Z.to_nat (h - lo)); split; [lia|].
  apply in_seq; lia.
Qed.

Lemma time_bounds : forall f,
  0 <= t_hour (time_of_fields f) <= 23 /\ 0 <= t_minute (time_of_fields f) <= 59
  /\ 0 <= t_second (time_of_fields f) <= 59.
Proof.
  intros [[h m] s]; cbn [time_of_fields t_hour t_minute t_second].
  divmod_as (h * 3600 + m * 60 + s) 86400 q0 tot.
  divmod_as tot 3600 q1 r1.
  divmod_as r1 60 q2 r2.
  divmod_as tot 60 q3 r3.
  repeat split; lia.
Qed.

Lemma time_second_zero : forall h m, t_second (time_of_fields (h, m, 0)) = 0.
Proof.
  intros h m; cbn [time_of_fields t_second].
  divmod_as (h * 3600 + m * 60 + 0) 86400 q0 tot.
  divmod_as tot 60 q1 r1.
  lia.
Qed.

(** The groups of a match are the directives of the format, in order. *)
Lemma match_toks_keys : forall ts s cs r,
  In (cs, r) (match_toks ts s) -> map fst cs = tok_keys ts.
Proof.
  induction ts as [|t ts IH]; intros s cs r Hin.
  - destruct Hin as [H|[]]; injection H as <- _; reflexivity.
  - destruct t as [d re|c]; simpl in *.
    + apply in_flat_map in Hin as [a [_ Hin]].
      destruct (match_alt a s) as [[got rest]|]; [|destruct Hin].
      apply in_map_iff in Hin as [[cs' r'] [Heq Hin]].
      injection Heq as <- _; simpl; f_equal; eapply IH; eauto.
    + destruct s as [|x s]; [destruct Hin|].
      destruct (is_char c x); [eapply IH; eauto | destruct Hin].
Qed.

Lemma to_datetime_shape : forall fmt s tm,
  to_datetime fmt s = Ok (Some tm) ->
  exists ts cs, parse_format fmt = Ok ts /\ map fst cs = tok_keys ts
                /\ tm = time_of_fields (read_fields cs).
Proof.
  unfold to_datetime; intros fmt s tm H.
  destruct (_ || _); [discriminate|].
  destruct (parse_format fmt) as [ts|e]; simpl in H; [|discriminate].
  destruct (match_toks ts s) as [|[cs rest] more] eqn:E; [discriminate|].
  destruct rest; [|discriminate].
  injection H as <-.
  exists ts, cs; repeat split.
  eapply match_toks_keys; rewrite E; left; reflexivity.
Qed.

Lemma keys_12h : forall ts, parse_format (py "%I:%M%p") = Ok ts ->
  tok_keys ts = ["I"; "M"; "p"].
Proof. intros ts H; cbn in H; injection H as <-; reflexivity. Qed.

Lemma keys_24h : forall ts, parse_format (py "%H:%M") = Ok ts ->
  tok_keys ts = ["H"; "M"].
Proof. intros ts H; cbn in H; injection H as <-; reflexivity. Qed.

(** What [standardize_time] can return: ['Unknown'], or a time of day with
    zero seconds. *)
Lemma standardize_time_shape : forall c,
  standardize_time c = Unknown
  \/ exists h m, 0 <= h <= 23 /\ 0 <= m <= 59 /\ standardize_time c = hms_str h m 0.
Proof.
  intros c; unfold standardize_time, standardize_time_body.
  destruct (isnull c); [left; reflexivity|].
  destruct c as [| s | | | |]; try (left; reflexivity).
  simpl bind; cbv zeta.
  set (t := lower (strip s)).
  assert (Hfmt : forall fmt, 
            (forall ts cs, parse_format fmt = Ok ts -> map fst cs = tok_keys ts ->
               exists a b, read_fields cs = (a, b, 0)) ->
            match (d <- to_datetime fmt t ;; strftime_hms d) with
            | Ok s => s | Raise _ => Unknown end = Unknown
            \/ exists h m, 0 <= h <= 23 /\ 0 <= m <= 59 /\
              match (d <- to_datetime fmt t ;; strftime_hms d) with
              | Ok s => s | Raise _ => Unknown end = hms_str h m 0).
  { intros fmt Hkeys.
    destruct (to_datetime fmt t) as [[tm|]|e] eqn:Ht; simpl; try (left; reflexivity).
    right.
    destruct (to_datetime_shape _ _ _ Ht) as [ts [cs [Hp [Hk ->]]]].
    destruct (Hkeys ts cs Hp Hk) as [a [b Hab]].
    pose proof (time_bounds (read_fields cs)) as [Hh [Hm _]].
    exists (t_hour (time_of_fields (read_fields cs))),
           (t_minute (time_of_fields (read_fields cs))).
    repeat split; try lia.
    unfold hms_str; rewrite Hab, time_second_zero; reflexivity. }
  destruct (contains _ t || contains _ t).
  - apply Hfmt. intros ts cs Hp Hk.
    rewrite (keys_12h _ Hp) in Hk.
    destruct cs as [|[k1 v1] [|[k2 v2] [|[k3 v3] [|]]]]; try discriminate Hk.
    simpl in Hk; injection Hk as -> -> ->.
    unfold read_fields; cbn -[py_int lower].
    repeat match goal with |- context [str_eqb ?a ?b] => destruct (str_eqb a b) end;
      cbn -[py_int lower]; eauto.
  - destruct (contains _ t); [left; reflexivity|].
    apply Hfmt. intros ts cs Hp Hk.
    rewrite (keys_24h _ Hp) in Hk.
    destruct cs as [|[k1 v1] [|[k2 v2] [|]]]; try discriminate Hk.
    simpl in Hk; injection Hk as -> ->.
    unfold read_fields; cbn -[py_int]; eauto.
Qed.

Lemma hms_roundtrip : forall h m, 0 <= h <= 23 -> 0 <= m <= 59 ->
  hms_roundtrip_ok h m = true.
Proof.
  intros h m Hh Hm.
  assert (Hall : forallb (fun h => forallb (hms_roundtrip_ok h) (zrange 0 60))
                   (zrange 0 24) = true) by (vm_compute; reflexivity).
  pose proof (zrange_forall _ _ _ Hall h ltac:(simpl; lia)) as Hh'.
  exact (zrange_forall _ _ _ Hh' m ltac:(simpl; lia)).
Qed.

(** [str.lower] commutes with [str.strip] and is idempotent. *)
Lemma lower_char_idem : forall c, lower_char (lower_char c) = lower_char c.
Proof. intros [[] [] [] [] [] [] [] []]; reflexivity. Qed.

Lemma is_space_lower_char : forall c, is_space (lower_char c) = is_space c.
Proof. intros [[] [] [] [] [] [] [] []]; reflexivity. Qed.

Lemma lstrip_lower : forall s, lstrip (lower s) = lower (lstrip s).
Proof.
  induction s as [|c s IH]; [reflexivity|].
  simpl; rewrite is_space_lower_char.
  destruct (is_space c); [exact IH | reflexivity].
Qed.

Lemma strip_lower : forall s, strip (lower s) = lower (strip s).
Proof.
  intros s; unfold strip, rstrip.
  rewrite lstrip_lower; unfold lower.
  rewrite <- map_rev; fold (lower (rev (lstrip s))).
  rewrite lstrip_lower; unfold lower; symmetry; apply map_rev.
Qed.

Lemma lower_idem : forall s, lower (lower s) = lower s.
Proof.
  intros s; unfold lower; rewrite map_map.
  apply map_ext; apply lower_char_idem.
Qed.

(** Where the header cleanup leaves a header: [strip] removes a blank
    prefix and a blank suffix and stops at non-blank characters. *)
Lemma lstrip_split : forall s,
  exists pre, s = pre ++ lstrip s /\ forallb is_space pre = true
              /\ match lstrip s with [] => True | c :: _ => is_space c = false end.
Proof.
  induction s as [|c s IH]; [exists []; simpl; auto|].
  simpl; destruct (is_space c) eqn:Hc.
  - destruct IH as [pre [Hs [Hp Hl]]].
    exists (c :: pre); simpl; rewrite Hc, Hp; rewrite <- Hs; auto.
  - exists []; simpl; auto.
Qed.

Lemma lstrip_app_last : forall l c, is_space c = false ->
  exists y, lstrip (l ++ [c]) = y ++ [c].
Proof.
  induction l as [|x l IH]; intros c Hc; simpl.
  - rewrite Hc; exists []; reflexivity.
  - destruct (is_space x); [apply IH; exact Hc|].
    exists (x :: l); reflexivity.
Qed.

Lemma forallb_rev : forall {A} (f : A -> bool) l, forallb f (rev l) = forallb f l.
Proof.
  intros A f l; apply Bool.eq_true_iff_eq; rewrite !forallb_forall.
  split; intros H x Hx; apply H.
  - exact (proj1 (in_rev l x) Hx).
  - exact (proj2 (in_rev l x) Hx).
Qed.

Lemma strip_split : forall s,
  exists pre suf, s = pre ++ strip s ++ suf
    /\ forallb is_space pre = true /\ forallb is_space suf = true
    /\ no_edge_space (strip s) = true.
Proof.
  intros s.
  destruct (lstrip_split s) as [pre [Hs [Hpre Hhd]]].
  destruct (lstrip_split (rev (lstrip s))) as [pre2 [Hr [Hpre2 Hhd2]]].
  assert (Hstrip : strip s = rev (lstrip (rev (lstrip s)))) by reflexivity.
  assert (Hl : lstrip s = strip s ++ rev pre2).
  { rewrite Hstrip, <- rev_app_distr, <- Hr, rev_involutive; reflexivity. }
  exists pre, (rev pre2); repeat split.
  - rewrite Hs at 1; rewrite Hl; reflexivity.
  - exact Hpre.
  - rewrite forallb_rev; exact Hpre2.
  - destruct (lstrip (rev (lstrip s))) as [|d L'] eqn:E; rewrite Hstrip; [reflexivity|].
    simpl rev.
    destruct (rev L' ++ [d]) as [|c x] eqn:Ex; [apply app_eq_nil in Ex as [_ Ex]; discriminate Ex|].
    unfold no_edge_space; rewrite <- Ex, last_last.
    rewrite Hl, Hstrip in Hhd; simpl rev in Hhd; rewrite Ex in Hhd; simpl in Hhd.
    rewrite Hhd, Hhd2; reflexivity.
Qed.

(** The two replacements of the header cleanup, as one pass. *)
Lemma clean_header_spec : forall h, clean_header h = spec_clean h.
Proof.
  intros h; unfold clean_header, spec_clean, replace_char.
  rewrite map_map; apply map_ext; intros c.
  destruct (Ascii.eqb c nl) eqn:E1; simpl.
  - reflexivity.
  - destruct (Ascii.eqb c nbsp); reflexivity.
Qed.

Lemma clean_header_edges : forall h, no_edge_space (clean_header h) = true.
Proof.
  intros h; rewrite clean_header_spec; unfold spec_clean.
  destruct (strip_split h) as [_ [_ [_ [_ [_ Hedge]]]]].
  set (f := fun c => if Ascii.eqb c nl || Ascii.eqb c nbsp then " " else c).
  assert (Hf : forall c, is_space c = false -> f c = c).
  { intros c Hc; unfold f.
    destruct (Ascii.eqb_spec c nl) as [->|]; [discriminate|].
    destruct (Ascii.eqb_spec c nbsp) as [->|]; [discriminate|reflexivity]. }
  destruct (strip h) as [|c x] eqn:E; [reflexivity|].
  assert (Hlast : forall y d, last (map f y) (f d) = f (last y d)).
  { induction y as [|a y IH]; intros d; [reflexivity|].
    destruct y as [|b y]; [reflexivity|].
    exact (IH d). }
  unfold no_edge_space in *; apply andb_true_iff in Hedge as [H1 H2].
  apply negb_true_iff in H1, H2.
  change (negb (is_space (f c)) && negb (is_space (last (map f (c :: x)) (f c))) = true).
  rewrite Hlast, (Hf c H1), (Hf _ H2), H1, H2; reflexivity.
Qed.

(** Counting per key loses no row and counts none twice. *)
Lemma total_count_cons : forall {K} (kn : K * nat) l,
  total_count (kn :: l) = (snd kn + total_count l)%nat.
Proof. reflexivity. Qed.

Lemma add_key_total : forall {K} (eqb : K -> K -> bool) k acc,
  total_count (add_key eqb k acc) = S (total_count acc).
Proof.
  intros K eqb k acc; induction acc as [|[k' n] acc IH]; [reflexivity|].
  cbn [add_key]; destruct (eqb k k'); rewrite !total_count_cons; simpl; [reflexivity|].
  rewrite IH; lia.
Qed.

Lemma group_counts_total : forall {K} (eqb : K -> K -> bool) keys,
  total_count (group_counts eqb keys) = count_some keys.
Proof.
  intros K eqb keys; unfold group_counts.
  assert (G : forall acc, total_count (fold_left (fun acc ok =>
            match ok with Some k => add_key eqb k acc | None => acc end) keys acc)
          = (total_count acc + count_some keys)%nat).
  { induction keys as [|[k|] keys IH]; intros acc; simpl.
    - lia.
    - rewrite IH, add_key_total; lia.
    - apply IH. }
  rewrite G; reflexivity.
Qed.

Lemma count_some_all : forall {A B} (g : A -> B) l,
  count_some (map (fun x => Some (g x)) l) = List.length l.
Proof. intros A B g l; induction l as [|x l IH]; simpl; auto. Qed.

Lemma count_some_le : forall {A} (l : list (option A)), (count_some l <= List.length l)%nat.
Proof. intros A l; induction l as [|[x|] l IH]; simpl; lia. Qed.

Lemma cell_eq_str_iff : forall c v, cell_eq_str c v = true <-> c = CStr v.
Proof.
  intros [| s | | | |] v; simpl; try (split; intro H; discriminate H).
  rewrite str_eqb_eq; split; [intros ->|intro H; injection H]; auto.
Qed.

(* ================================================================== *)
(** * The claims *)

(** C1: [standardize_time] maps a missing value and the empty string to
    ['Unknown'], ["2:30pm"] to ["14:30:00"], ["14:05"] to ["14:05:00"],
    ["9-10"] and ["25:99"] to ['Unknown']; every string that, trimmed and
    lower-cased, contains a hyphen and neither ["am"] nor ["pm"] gives
    ['Unknown']; and the result does not depend on the case of the input,
    so the meridiem marker is matched case-insensitively. *)
Theorem standardize_time_contract :
  standardize_time CNull = Unknown
  /\ standardize_time (CStr []) = Unknown
  /\ standardize_time (CStr (py "2:30pm")) = py "14:30:00"
  /\ standardize_time (CStr (py "14:05")) = py "14:05:00"
  /\ standardize_time (CStr (py "9-10")) = Unknown
  /\ standardize_time (CStr (py "25:99")) = Unknown
  /\ (forall s,
        contains (py "-") (lower (strip s)) = true ->
        contains (py "am") (lower (strip s)) = false ->
        contains (py "pm") (lower (strip s)) = false ->
        standardize_time (CStr s) = Unknown)
  /\ (forall s, standardize_time (CStr (lower s)) = standardize_time (CStr s)).
Proof.
  repeat split; try reflexivity.
  - intros s Hh Ha Hp.
    cbv [standardize_time standardize_time_body isnull py_strip bind].
    rewrite Ha, Hp, Hh; reflexivity.
  - intros s.
    cbv [standardize_time standardize_time_body isnull py_strip bind].
    rewrite strip_lower, lower_idem; reflexivity.
Qed.

Lemma standardize_time_contract_witness :
  contains (py "-") (lower (strip (py " 10-11 "))) = true
  /\ contains (py "am") (lower (strip (py " 10-11 "))) = false
  /\ contains (py "pm") (lower (strip (py " 10-11 "))) = false
  /\ standardize_time (CStr (py " 10-11 ")) = Unknown.
Proof.
  destruct standardize_time_contract as (_ & _ & _ & _ & _ & _ & Hhyphen & _).
  assert (H1 : contains (py "-") (lower (strip (py " 10-11 "))) = true) by reflexivity.
  assert (H2 : contains (py "am") (lower (strip (py " 10-11 "))) = false) by reflexivity.
  assert (H3 : contains (py "pm") (lower (strip (py " 10-11 "))) = false) by reflexivity.
  exact (conj H1 (conj H2 (conj H3 (Hhyphen _ H1 H2 H3)))).
Defined.

(** C2: on every hour from -1 to 23, [time_range] returns the label that
    the table of the specification gives it ([Unknown] below 0, then
    [[0,6)], [[6,9)], [[9,12)], [[12,15)], [[15,18)], [[18,21)], [[21,24)]),
    which is one of eight distinct labels. *)
Theorem time_range_partition : forall h, -1 <= h <= 23 ->
  time_range h = spec_time_range h /\ In (time_range h) time_range_labels
  /\ NoDup time_range_labels.
Proof.
  intros h Hh.
  assert (Hall : forallb time_range_ok (zrange (-1) 25) = true)
    by (vm_compute; reflexivity).
  pose proof (zrange_forall _ _ _ Hall h ltac:(simpl; lia)) as Hok.
  unfold time_range_ok in Hok; apply andb_true_iff in Hok as [H1 H2].
  apply str_eqb_eq in H1; apply existsb_exists in H2 as [l [Hl Heq]].
  apply str_eqb_eq in Heq; subst l.
  repeat split; [exact H1 | exact Hl |].
  cbv; repeat constructor; intros H;
    repeat (destruct H as [H|H]; [discriminate H|]); exact H.
Qed.

Lemma time_range_partition_witness :
  -1 <= 14 <= 23 /\ time_range 14 = spec_time_range 14
  /\ In (time_range 14) time_range_labels /\ NoDup time_range_labels.
Proof.
  assert (H : -1 <= 14 <= 23) by lia.
  exact (conj H (time_range_partition 14 H)).
Defined.

(** C3: the selection ['All'] returns the rows unchanged; any other
    selection [t] keeps exactly the rows whose incident type is the string
    [t] (string equality, so case-sensitive and never a prefix match). *)
Theorem filter_rows_contract : forall df,
  filter_rows df (py "All") = df
  /\ forall t, t <> py "All" ->
     forall r, In r (filter_rows df t) <-> In r df /\ r_incident_type r = CStr t.
Proof.
  intros df; split; [reflexivity|].
  intros t Ht r; unfold filter_rows.
  destruct (str_eqb t (py "All")) eqn:E; [apply str_eqb_eq in E; contradiction|].
  simpl negb; cbv iota.
  rewrite filter_In, cell_eq_str_iff; reflexivity.
Qed.

Lemma filter_rows_contract_witness :
  py "theft" <> py "All"
  /\ (forall r, In r (filter_rows scenario_df (py "theft"))
                <-> In r scenario_df /\ r_incident_type r = CStr (py "theft")).
Proof.
  assert (H : py "theft" <> py "All") by (cbv; discriminate).
  exact (conj H (proj2 (filter_rows_contract scenario_df) _ H)).
Defined.

(** C4: after the derivation, a row's hour agrees with its standardised
    time: when the time parses with ['%H:%M:%S'] the hour is its hour
    field, written in its first two characters and within [0,23];
    otherwise (['Unknown'] among others) the hour is -1. *)
Theorem incident_hour_consistent :
  parse_hms Unknown = None
  /\ forall (F : Type) (guess : list cell -> F) (parse : F -> cell -> option date)
            (df : list raw_row) (r : row),
     In r (derive F guess parse df) ->
     match parse_hms (r_standardized_time r) with
     | Some t => r_incident_hour r = t_hour t /\ 0 <= t_hour t <= 23
                 /\ t_hour t = py_int (firstn 2 (r_standardized_time r))
     | None => r_incident_hour r = -1
     end.
Proof.
  split; [reflexivity|].
  intros F guess parse df r Hin.
  unfold derive in Hin; apply in_map_iff in Hin as [raw [<- _]].
  unfold derive_row; cbv zeta; cbn [r_standardized_time r_incident_hour].
  destruct (standardize_time_shape (raw_incident_time raw)) as [H|[h [m [Hh [Hm H]]]]];
    rewrite H.
  - vm_compute; reflexivity.
  - pose proof (hms_roundtrip h m Hh Hm) as R; unfold hms_roundtrip_ok in R.
    unfold incident_hour_of.
    destruct (parse_hms (hms_str h m 0)) as [t|]; [|discriminate R].
    repeat rewrite andb_true_iff in R.
    destruct R as [[[[H1 _] _] H4] _]; rewrite Z.eqb_eq in H1, H4.
    repeat split; lia.
Qed.

Lemma incident_hour_consistent_witness :
  let r := derive_row ts_date_format ts_parse tt
             (mk_raw_row (CTimestamp 2024 3 5 0 0 0) (CStr (py "2:15pm"))
                (CStr (py "Theft")) []) in
  In r scenario_df
  /\ match parse_hms (r_standardized_time r) with
     | Some t => r_incident_hour r = t_hour t /\ 0 <= t_hour t <= 23
                 /\ t_hour t = py_int (firstn 2 (r_standardized_time r))
     | None => r_incident_hour r = -1
     end.
Proof.
  intros r.
  assert (Hin : In r scenario_df) by (left; reflexivity).
  exact (conj Hin (proj2 incident_hour_consistent _ ts_guess ts_parse scenario r Hin)).
Defined.

(** C5: the pie chart of incident types is computed from the whole data
    set, so it is the same for every selection, while the other figures
    are computed from the filtered rows and do change with it. *)
Theorem pie_ignores_selection :
  (forall df s1 s2, update_pie_chart df s1 = update_pie_chart df s2)
  /\ (forall df s, update_graphs df s = graphs_of (filter_rows df s))
  /\ exists df s1 s2, g_total (update_graphs df s1) <> g_total (update_graphs df s2).
Proof.
  split; [reflexivity|]; split; [reflexivity|].
  exists scenario_df, (py "All"), (py "Theft"); vm_compute; discriminate.
Qed.

(** C6 (as stated, refuted): re-applying [standardize_time] to the
    output of ["2:30pm"] does not give that output back: the 24-hour path
    parses with ['%H:%M'], which leaves [":00"] unconverted. *)
Lemma standardize_time_not_idempotent :
  let out := standardize_time (CStr (py "2:30pm")) in
  out = py "14:30:00" /\ standardize_time (CStr out) = Unknown
  /\ standardize_time (CStr out) <> out.
Proof. vm_compute; split; [reflexivity | split; [reflexivity | discriminate]]. Qed.

(** C6 (amended): on every valid 12-hour input [H:MMam] / [H:MMpm] (hour
    1 to 12 with or without a leading zero, minute on two digits, marker in
    any case) [standardize_time] returns the [HH:MM:00] of the 24-hour
    conversion; re-applying it to that output gives ['Unknown'], and
    re-applying it to the [HH:MM] part of that output gives the same
    output back. *)
Theorem twelve_hour_reapply : forall pad h m mer,
  1 <= h <= 12 -> 0 <= m <= 59 -> In mer meridiems ->
  let out := standardize_time (CStr (mk12 pad h m mer)) in
  out = hms_str (to_24h h mer) m 0
  /\ standardize_time (CStr out) = Unknown
  /\ standardize_time (CStr (firstn 5 out)) = out.
Proof.
  intros pad h m mer Hh Hm Hmer out.
  assert (Hall : forallb (fun pad => forallb (fun mer =>
                   forallb (fun h => forallb (twelve_hour_ok pad mer h) (zrange 0 60))
                     (zrange 1 12)) meridiems) [true; false] = true)
    by (vm_compute; reflexivity).
  rewrite forallb_forall in Hall.
  specialize (Hall pad ltac:(destruct pad; simpl; auto)).
  rewrite forallb_forall in Hall; specialize (Hall mer Hmer).
  pose proof (zrange_forall _ _ _ Hall h ltac:(simpl; lia)) as Hh'.
  pose proof (zrange_forall _ _ _ Hh' m ltac:(simpl; lia)) as Hok.
  unfold twelve_hour_ok in Hok; fold out in Hok.
  repeat rewrite andb_true_iff in Hok; destruct Hok as [[H1 H2] H3].
  apply str_eqb_eq in H1, H2, H3; auto.
Qed.

Lemma twelve_hour_reapply_witness :
  1 <= 2 <= 12 /\ 0 <= 30 <= 59 /\ In (py "PM") meridiems
  /\ (let out := standardize_time (CStr (mk12 false 2 30 (py "PM"))) in
      out = hms_str (to_24h 2 (py "PM")) 30 0
      /\ standardize_time (CStr out) = Unknown
      /\ standardize_time (CStr (firstn 5 out)) = out).
Proof.
  assert (H1 : 1 <= 2 <= 12) by lia.
  assert (H2 : 0 <= 30 <= 59) by lia.
  assert (H3 : In (py "PM") meridiems) by (simpl; auto).
  exact (conj H1 (conj H2 (conj H3 (twelve_hour_reapply false 2 30 _ H1 H2 H3)))).
Defined.

(** C7: each header is trimmed (a blank prefix and suffix removed, leaving
    no blank at either end), its newlines and non-breaking spaces become
    ordinary spaces, and the result is renamed when it is a key of
    [rename_mapping] (["Time (AM or PM)"] becomes ["Incident Time"]) and
    kept otherwise; no header is dropped. *)
Theorem normalize_columns_contract :
  dict_get (py "Time (AM or PM)") rename_mapping = Some (py "Incident Time")
  /\ forall hs,
     List.length (normalize_columns hs) = List.length hs
     /\ forall i h, nth_error hs i = Some h ->
        (exists pre suf, h = pre ++ strip h ++ suf
           /\ forallb is_space pre = true /\ forallb is_space suf = true)
        /\ no_edge_space (clean_header h) = true
        /\ clean_header h = spec_clean h
        /\ nth_error (normalize_columns hs) i
           = Some (match dict_get (clean_header h) rename_mapping with
                   | Some canonical => canonical
                   | None => clean_header h
                   end).
Proof.
  split; [reflexivity|].
  intros hs; split.
  - unfold normalize_columns; rewrite !length_map; reflexivity.
  - intros i h Hi; repeat split.
    + destruct (strip_split h) as [pre [suf [Hs [Hp [Hq _]]]]].
      exists pre, suf; auto.
    + apply clean_header_edges.
    + apply clean_header_spec.
    + unfold normalize_columns; rewrite !nth_error_map, Hi; reflexivity.
Qed.

Lemma normalize_columns_contract_witness :
  let hs := [py " Time" ++ [nl] ++ py "(AM or PM)"; py "Date"] in
  nth_error hs 0 = Some (py " Time" ++ [nl] ++ py "(AM or PM)")
  /\ nth_error (normalize_columns hs) 0
     = Some (match dict_get (clean_header (py " Time" ++ [nl] ++ py "(AM or PM)"))
                     rename_mapping with
             | Some canonical => canonical
             | None => clean_header (py " Time" ++ [nl] ++ py "(AM or PM)")
             end).
Proof.
  intros hs.
  assert (Hi : nth_error hs 0 = Some (py " Time" ++ [nl] ++ py "(AM or PM)"))
    by reflexivity.
  destruct (proj2 (proj2 normalize_columns_contract hs) 0%nat _ Hi) as (_ & _ & _ & H).
  exact (conj Hi H).
Defined.

(** C8: [standardize_time] always returns a value, ['Unknown'] or a string
    of the form [HH:MM:SS]; an exception raised in its body is caught and
    gives ['Unknown']. *)
Theorem standardize_time_always_value : forall c,
  (standardize_time c = Unknown \/ is_hhmmss (standardize_time c) = true)
  /\ (forall e, standardize_time_body c = Raise e -> standardize_time c = Unknown).
Proof.
  intros c; split.
  - destruct (standardize_time_shape c) as [H|[h [m [Hh [Hm H]]]]]; [left; exact H|].
    right; rewrite H.
    pose proof (hms_roundtrip h m Hh Hm) as R; unfold hms_roundtrip_ok in R.
    apply andb_true_iff in R as [_ R]; exact R.
  - intros e He; unfold standardize_time; rewrite He; reflexivity.
Qed.

Lemma standardize_time_always_value_witness :
  standardize_time_body (CStr (py "25:99")) = Raise ValueError
  /\ standardize_time (CStr (py "25:99")) = Unknown.
Proof.
  assert (He : standardize_time_body (CStr (py "25:99")) = Raise ValueError)
    by reflexivity.
  exact (conj He (proj2 (standardize_time_always_value _) _ He)).
Defined.

(** C9: for every derived data set and selection, the counts per hour and
    the counts per time range add up to the number of selected rows; the
    counts per weekday add up to at most that number. *)
Theorem grouped_counts_total : forall (F : Type) (guess : list cell -> F)
    (parse : F -> cell -> option date) (df : list raw_row) (sel : str),
  let rows := filter_rows (derive F guess parse df) sel in
  let g := update_graphs (derive F guess parse df) sel in
  total_count (g_hour_counts g) = List.length rows
  /\ total_count (g_range_counts g) = List.length rows
  /\ (total_count (g_day_counts g) <= List.length rows)%nat.
Proof.
  intros F guess parse df sel rows g.
  unfold g, update_graphs, graphs_of; fold rows.
  cbn [g_hour_counts g_range_counts g_day_counts].
  rewrite !group_counts_total, !count_some_all.
  split; [reflexivity | split; [reflexivity|]].
  rewrite <- (length_map r_day_of_week rows); apply count_some_le.
Qed.

(** C10: a cell that is present but is not a string (a number, a boolean,
    a [datetime.time], a timestamp) has no [strip]; the [AttributeError]
    is caught and the result is ['Unknown']. *)
Theorem standardize_time_non_string : forall c,
  isnull c = false -> (forall s, c <> CStr s) -> standardize_time c = Unknown.
Proof.
  intros [| s | | | |] Hn Hs; try discriminate Hn; try reflexivity.
  exfalso; exact (Hs s eq_refl).
Qed.

Lemma standardize_time_non_string_witness :
  isnull (CTime 14 30 0) = false /\ (forall s, CTime 14 30 0 <> CStr s)
  /\ standardize_time (CTime 14 30 0) = Unknown.
Proof.
  assert (Hn : isnull (CTime 14 30 0) = false) by reflexivity.
  assert (Hs : forall s, CTime 14 30 0 <> CStr s) by (intros s; discriminate).
  exact (conj Hn (conj Hs (standardize_time_non_string _ Hn Hs))).
Defined.

(* ================================================================== *)
(** * Further properties of the script *)

Ltac zbool_to_prop :=
  repeat match goal with
  | H : (_ && _)%bool = true |- _ => apply andb_true_iff in H as [? ?]
  | H : (_ && _)%bool = false |- _ => apply andb_false_iff in H as [?|?]
  | H : (_ <? _) = true |- _ => apply Z.ltb_lt in H
  | H : (_ <? _) = false |- _ => apply Z.ltb_ge in H
  | H : (_ <=? _) = true |- _ => apply Z.leb_le in H
  | H : (_ <=? _) = false |- _ => apply Z.leb_gt in H
  end.

(** Membership of a closed value in a closed list. *)
Ltac in_closed := cbv; repeat (first [left; reflexivity | right]).

(** [time_range] on every integer. *)
Lemma time_range_cases : forall h,
  In (time_range h) time_range_labels
  /\ (time_range h = Unknown <-> h < 0)
  /\ (24 <= h -> time_range h = py "9pm-12am").
Proof.
  intros h; unfold time_range.
  destruct (Z.ltb_spec h 0) as [Hn|Hn].
  - split; [in_closed|]; split; [tauto | intro; lia].
  - repeat (match goal with |- context [if ?c then _ else _] => destruct c eqn:? end;
       [zbool_to_prop; (split; [in_closed|]);
       (split; [split; [let Hx := fresh in intro Hx; cbv in Hx; discriminate Hx | intro; exfalso; lia] | intro; exfalso; lia]) |]).
    split; [in_closed|].
    split; [split; [let Hx := fresh in intro Hx; cbv in Hx; discriminate Hx | intro; exfalso; lia] | reflexivity].
Qed.

(** ** Lemmas on strings *)


Lemma lstrip_spaces : forall w x, forallb is_space w = true -> lstrip (w ++ x) = lstrip x.
Proof.
  induction w as [|c w IH]; intros x Hw; [reflexivity|].
  simpl in *; apply andb_true_iff in Hw as [Hc Hw]; rewrite Hc; auto.
Qed.

Lemma lstrip_app : forall s w,
  lstrip (s ++ w) = match lstrip s with [] => lstrip w | _ => lstrip s ++ w end.
Proof.
  induction s as [|c s IH]; intros w; [reflexivity|].
  simpl; destruct (is_space c); [apply IH | reflexivity].
Qed.

Lemma strip_pad : forall w1 s w2,
  forallb is_space w1 = true -> forallb is_space w2 = true ->
  strip (w1 ++ s ++ w2) = strip s.
Proof.
  intros w1 s w2 H1 H2; unfold strip.
  rewrite lstrip_spaces by exact H1; rewrite lstrip_app.
  destruct (lstrip s) as [|c y] eqn:E.
  - rewrite <- (app_nil_r w2), lstrip_spaces by exact H2; reflexivity.
  - unfold rstrip; rewrite rev_app_distr, lstrip_spaces; [reflexivity|].
    rewrite forallb_rev; exact H2.
Qed.

(** A string with no blank at either end is its own [strip]. *)
Lemma lstrip_id : forall s, match s with [] => True | c :: _ => is_space c = false end ->
  lstrip s = s.
Proof. intros [|c s] H; [reflexivity|]; simpl; rewrite H; reflexivity. Qed.

Lemma strip_id : forall s, no_edge_space s = true -> strip s = s.
Proof.
  intros [|c s] H; [reflexivity|].
  unfold no_edge_space in H; apply andb_true_iff in H as [H1 H2].
  apply negb_true_iff in H1, H2.
  unfold strip; rewrite (lstrip_id (c :: s)) by exact H1.
  unfold rstrip.
  destruct (exists_last (l := c :: s) ltac:(discriminate)) as [x [d Ex]].
  rewrite Ex in *; rewrite last_last in H2.
  rewrite rev_app_distr; simpl; rewrite H2; simpl; rewrite rev_involutive; reflexivity.
Qed.

Lemma lstrip_nil_spaces : forall s, lstrip s = [] -> forallb is_space s = true.
Proof.
  intros s H; destruct (lstrip_split s) as [pre [Hs [Hp _]]].
  rewrite H, app_nil_r in Hs; subst; exact Hp.
Qed.

Lemma is_hhmmss_Unknown : is_hhmmss Unknown = false.
Proof. reflexivity. Qed.

(** ** Lemmas on the derived columns *)


Lemma derived_row_times : forall (F : Type) (guess : list cell -> F)
    (parse : F -> cell -> option date) (df : list raw_row) (r : row),
  In r (derive F guess parse df) ->
  -1 <= r_incident_hour r <= 23
  /\ (r_standardized_time r = Unknown <-> r_incident_hour r = -1)
  /\ (r_time_range r = Unknown <-> r_incident_hour r = -1).
Proof.
  intros F guess parse df r Hin.
  unfold derive in Hin; apply in_map_iff in Hin as [raw [<- _]].
  unfold derive_row; cbv zeta; cbn [r_standardized_time r_incident_hour r_time_range].
  destruct (time_range_cases (incident_hour_of (standardize_time (raw_incident_time raw))))
    as [_ [HR _]]; rewrite HR.
  destruct (standardize_time_shape (raw_incident_time raw)) as [H|[h [m [Hh [Hm H]]]]];
    rewrite H.
  - assert (E : incident_hour_of Unknown = -1) by (vm_compute; reflexivity).
    rewrite E; repeat split; try lia; reflexivity.
  - pose proof (hms_roundtrip h m Hh Hm) as R; unfold hms_roundtrip_ok in R.
    unfold incident_hour_of.
    destruct (parse_hms (hms_str h m 0)) as [t|]; [|discriminate R].
    repeat rewrite andb_true_iff in R.
    destruct R as [[[[H1 _] _] _] H5]; rewrite Z.eqb_eq in H1.
    repeat split; try lia.
    intro E; rewrite E, is_hhmmss_Unknown in H5; discriminate H5.
Qed.

Lemma day_name_in_order : forall d, In (day_name d) day_order.
Proof.
  intros [[y m] dd]; unfold day_name.
  set (w := (_ + _) mod 7).
  assert (Hw : 0 <= w < 7) by (apply Z.mod_pos_bound; lia).
  assert (Hn : (Z.to_nat w < 7)%nat) by lia.
  destruct (Z.to_nat w) as [|[|[|[|[|[|[|n]]]]]]]; [in_closed..|lia].
Qed.

Lemma day_of_week_in_order : forall F guess parse df r,
  In r (derive F guess parse df) ->
  (r_day_of_week r = None <-> r_date r = None)
  /\ forall d, r_day_of_week r = Some d -> In d day_order.
Proof.
  intros F guess parse df r Hin.
  unfold derive in Hin; apply in_map_iff in Hin as [raw [<- _]].
  unfold derive_row; cbv zeta; cbn [r_day_of_week r_date].
  destruct (parse (guess (map raw_date df)) (raw_date raw)) as [dt|]; simpl.
  - split; [split; discriminate|].
    intros d Hd; injection Hd as <-; apply day_name_in_order.
  - split; [tauto | discriminate].
Qed.

(** ** Lemmas on the header cleanup *)


Lemma clean_header_no_breaks : forall h c, In c (clean_header h) -> c <> nl /\ c <> nbsp.
Proof.
  intros h c Hc; rewrite clean_header_spec in Hc; unfold spec_clean in Hc.
  apply in_map_iff in Hc as [d [<- _]].
  destruct (Ascii.eqb_spec d nl) as [->|E1]; [split; discriminate|].
  destruct (Ascii.eqb_spec d nbsp) as [->|E2]; [split; discriminate|].
  simpl; auto.
Qed.

Lemma replace_char_absent : forall a b s, (forall c, In c s -> c <> a) ->
  replace_char a b s = s.
Proof.
  intros a b s H; unfold replace_char.
  rewrite <- (map_id s) at 2; apply map_ext_in; intros c Hc.
  destruct (Ascii.eqb_spec c a) as [E|]; [exfalso; exact (H c Hc E)|reflexivity].
Qed.

Lemma clean_header_idem : forall h, clean_header (clean_header h) = clean_header h.
Proof.
  intros h; unfold clean_header at 1.
  rewrite strip_id by apply clean_header_edges.
  rewrite !replace_char_absent; [reflexivity| |].
  - intros c Hc; exact (proj1 (clean_header_no_breaks h c Hc)).
  - intros c Hc; rewrite replace_char_absent in Hc by
      (intros d Hd; exact (proj1 (clean_header_no_breaks h d Hd))).
    exact (proj2 (clean_header_no_breaks h c Hc)).
Qed.

Lemma dict_get_in : forall k d v, dict_get k d = Some v -> In (k, v) d.
Proof.
  intros k d v; induction d as [|[k' v'] d IH]; simpl; [discriminate|].
  destruct (str_eqb k k') eqn:E; [|auto].
  intro H; injection H as <-; apply str_eqb_eq in E; subst; auto.
Qed.

(** Every new name of [rename_mapping] is already clean and is renamed to
    itself. *)
Lemma rename_values_fixed : forall k v, In (k, v) rename_mapping ->
  clean_header v = v /\ rename_column v = v.
Proof.
  intros k v H.
  repeat (destruct H as [H|H]; [injection H as _ <-; split; vm_compute; reflexivity|]).
  destruct H.
Qed.

(** ** Lemmas on the removal of parenthesised text *)


(** Each match of [\s*\(.*?\)] consumes at least one character. *)
Lemma lazy_to_close_shorter : forall s r,
  lazy_to_close s = Some r -> (List.length r < List.length s)%nat.
Proof.
  induction s as [|c s IH]; intros r H; simpl in H; [discriminate|].
  destruct (Ascii.eqb c ")"); [injection H as <-; simpl; lia|].
  destruct (Ascii.eqb c nl); [discriminate|].
  specialize (IH r H); simpl; lia.
Qed.

Lemma paren_match_at_shorter : forall s r,
  paren_match_at s = Some r -> (List.length r < List.length s)%nat.
Proof.
  intros s r H; unfold paren_match_at in H.
  destruct (lstrip_split s) as [pre [Hs _]].
  destruct (lstrip s) as [|c s'] eqn:E; [discriminate|].
  destruct (Ascii.eqb c "("); [|discriminate].
  apply lazy_to_close_shorter in H.
  rewrite Hs, length_app; simpl; lia.
Qed.

Lemma sub_parens_fuel_enough : forall n m s,
  (List.length s <= n)%nat -> (List.length s <= m)%nat ->
  sub_parens_fuel n s = sub_parens_fuel m s.
Proof.
  induction n as [|n IH]; intros m s Hn Hm.
  - destruct s; [destruct m; reflexivity | simpl in Hn; lia].
  - destruct s as [|c s]; [destruct m; reflexivity|].
    destruct m as [|m]; [simpl in Hm; lia|].
    cbn [sub_parens_fuel].
    destruct (paren_match_at (c :: s)) as [rest|] eqn:E.
    + apply paren_match_at_shorter in E; apply IH; lia.
    + f_equal; apply IH; simpl in *; lia.
Qed.

Lemma sub_parens_step : forall k s rest,
  paren_match_at s = Some rest -> sub_parens_fuel (S k) s = sub_parens_fuel k rest.
Proof.
  intros k [|c s] rest H; [discriminate H|].
  cbn [sub_parens_fuel]; rewrite H; reflexivity.
Qed.

Lemma paren_match_at_none : forall s, (forall c, In c s -> c <> "(") ->
  paren_match_at s = None.
Proof.
  intros s Hs; unfold paren_match_at.
  destruct (lstrip_split s) as [pre [Heq _]].
  destruct (lstrip s) as [|c s'] eqn:E; [reflexivity|].
  destruct (Ascii.eqb_spec c "(") as [->|]; [|reflexivity].
  exfalso; apply (Hs "("); [|reflexivity].
  rewrite Heq; apply in_or_app; right; left; reflexivity.
Qed.

Lemma lazy_to_close_skip : forall q t,
  (forall c, In c q -> c <> ")" /\ c <> nl) -> lazy_to_close (q ++ ")" :: t) = Some t.
Proof.
  induction q as [|c q IH]; intros t Hq; [reflexivity|].
  simpl; destruct (Hq c (or_introl eq_refl)) as [H1 H2].
  destruct (Ascii.eqb_spec c ")"); [contradiction|].
  destruct (Ascii.eqb_spec c nl); [contradiction|].
  apply IH; intros d Hd; apply Hq; right; exact Hd.
Qed.

Lemma paren_match_at_none_app : forall x rest, (forall c, In c x -> c <> "(") ->
  lstrip x <> [] -> paren_match_at (x ++ rest) = None.
Proof.
  intros x rest Hx Hne; unfold paren_match_at; rewrite lstrip_app.
  destruct (lstrip_split x) as [pre [Heq _]].
  destruct (lstrip x) as [|d y] eqn:E; [contradiction|]; simpl.
  destruct (Ascii.eqb_spec d "(") as [->|]; [|reflexivity].
  exfalso; apply (Hx "("); [|reflexivity].
  rewrite Heq; apply in_or_app; right; left; reflexivity.
Qed.

(** Text with no [(] is copied over, as long as it does not end in a
    blank that a following match would take. *)
Lemma sub_parens_fuel_prefix : forall s rest k,
  (forall c, In c s -> c <> "(") -> (s = [] \/ is_space (last s " ") = false) ->
  sub_parens_fuel (List.length s + k) (s ++ rest) = s ++ sub_parens_fuel k rest.
Proof.
  induction s as [|c s IH]; intros rest k Hs Hlast; [reflexivity|].
  assert (Hne : lstrip (c :: s) <> []).
  { intro E; apply lstrip_nil_spaces in E.
    destruct Hlast as [Hl|Hl]; [discriminate Hl|].
    assert (Hin : In (last (c :: s) " ") (c :: s)).
    { clear; revert c; induction s as [|d s IH]; intros c; [left; reflexivity|].
      right; apply IH. }
    rewrite forallb_forall in E; rewrite (E _ Hin) in Hl; discriminate Hl. }
  pose proof (paren_match_at_none_app (c :: s) rest Hs Hne) as Hn.
  simpl (List.length (c :: s) + k)%nat; simpl ((c :: s) ++ rest) in *.
  cbn [sub_parens_fuel]; rewrite Hn, <- app_comm_cons.
  f_equal; apply IH.
  - intros d Hd; apply Hs; right; exact Hd.
  - destruct s as [|d s]; [left; reflexivity|right].
    destruct Hlast as [Hl|Hl]; [discriminate Hl|exact Hl].
Qed.

Lemma sub_parens_fuel_no_paren : forall n s, (forall c, In c s -> c <> "(") ->
  sub_parens_fuel n s = s.
Proof.
  induction n as [|n IH]; intros s Hs; [reflexivity|].
  destruct s as [|c s]; [reflexivity|].
  cbn [sub_parens_fuel]; rewrite (paren_match_at_none _ Hs).
  f_equal; apply IH; intros d Hd; apply Hs; right; exact Hd.
Qed.

Lemma paren_group_match : forall w q t,
  forallb is_space w = true -> (forall c, In c q -> c <> ")" /\ c <> nl) ->
  paren_match_at (w ++ "(" :: q ++ ")" :: t) = Some t.
Proof.
  intros w q t Hw Hq; unfold paren_match_at.
  rewrite lstrip_spaces by exact Hw.
  change (lstrip ("(" :: q ++ ")" :: t)) with ("(" :: q ++ ")" :: t).
  cbv iota beta; change (Ascii.eqb "(" "(") with true; cbv iota.
  apply lazy_to_close_skip; exact Hq.
Qed.

(** ** Lemmas on the dropdown options *)


Lemma cell_eqb_refl : forall c, isnull c = false -> cell_eqb c c = true.
Proof.
  intros [| s | q | b | h m s | y mo d h mi s] Hn; simpl.
  - discriminate Hn.
  - apply str_eqb_eq; reflexivity.
  - apply Qeq_bool_iff; apply Qeq_refl.
  - apply eqb_reflx.
  - rewrite !Z.eqb_refl; reflexivity.
  - rewrite !Z.eqb_refl; reflexivity.
Qed.

Lemma ForallOrdPairs_snoc : forall {A} (R : A -> A -> Prop) l c,
  ForallOrdPairs R l -> Forall (fun a => R a c) l -> ForallOrdPairs R (l ++ [c]).
Proof.
  intros A R l c H; induction H as [|a l Ha Hl IH]; intros Hc; simpl.
  - constructor; constructor.
  - inversion Hc as [|? ? Hac Hc']; subst.
    constructor; [apply Forall_app; split; [exact Ha | constructor; [exact Hac | constructor]]|].
    apply IH; exact Hc'.
Qed.

(** [unique()] only appends present values of the column, each one not
    equal to an earlier entry. *)
Lemma unique_fold_grows : forall l acc, exists ext,
  fold_left unique_step l acc = acc ++ ext
  /\ forall x, In x ext -> isnull x = false /\ In x l.
Proof.
  induction l as [|c l IH]; intros acc; simpl.
  - exists []; rewrite app_nil_r; split; [reflexivity | intros x []].
  - unfold unique_step at 2; destruct (isnull c || existsb (cell_eqb c) acc) eqn:E.
    + destruct (IH acc) as [ext [-> Hext]]; exists ext; split; [reflexivity|].
      intros x Hx; destruct (Hext x Hx); auto.
    + destruct (IH (acc ++ [c])) as [ext [-> Hext]]; exists (c :: ext).
      rewrite <- app_assoc; split; [reflexivity|].
      apply orb_false_iff in E as [En _].
      intros x [<-|Hx]; [auto|]; destruct (Hext x Hx); auto.
Qed.

Lemma unique_fold_covers : forall l acc y,
  In y l -> isnull y = false ->
  exists x, In x (fold_left unique_step l acc) /\ cell_eqb y x = true.
Proof.
  induction l as [|c l IH]; intros acc y Hy Hn; [destruct Hy|].
  destruct Hy as [->|Hy]; [|apply IH; assumption].
  simpl; unfold unique_step at 2; rewrite Hn; simpl orb.
  destruct (existsb (cell_eqb y) acc) eqn:E.
  - apply existsb_exists in E as [x [Hx Ex]].
    destruct (unique_fold_grows l acc) as [ext [-> _]].
    exists x; split; [apply in_or_app; left; exact Hx | exact Ex].
  - destruct (unique_fold_grows l (acc ++ [y])) as [ext [-> _]].
    exists y; split; [|apply cell_eqb_refl; exact Hn].
    apply in_or_app; left; apply in_or_app; right; left; reflexivity.
Qed.

Lemma unique_fold_distinct : forall l acc,
  ForallOrdPairs (fun a b => cell_eqb b a = false) acc ->
  ForallOrdPairs (fun a b => cell_eqb b a = false) (fold_left unique_step l acc).
Proof.
  induction l as [|c l IH]; intros acc Hacc; [exact Hacc|].
  simpl; apply IH; unfold unique_step.
  destruct (isnull c || existsb (cell_eqb c) acc) eqn:E; [exact Hacc|].
  apply orb_false_iff in E as [_ E].
  apply ForallOrdPairs_snoc; [exact Hacc|].
  apply Forall_forall; intros a Ha.
  destruct (cell_eqb c a) eqn:Ec; [|reflexivity].
  exfalso; assert (existsb (cell_eqb c) acc = true) as Hx
    by (apply existsb_exists; exists a; auto).
  rewrite Hx in E; discriminate E.
Qed.

Lemma incident_types_in : forall df c,
  In c (incident_types df) -> isnull c = false /\ In c (map r_incident_type df).
Proof.
  intros df c Hc; unfold incident_types in Hc.
  destruct (unique_fold_grows (map r_incident_type df) []) as [ext [Heq Hext]].
  rewrite Heq in Hc; apply Hext; exact Hc.
Qed.

(** ** Lemmas on the grouped counts *)


Section GroupCounts.
Context {K : Type} (eqb : K -> K -> bool).

Lemma group_counts_fold : forall keys,
  group_counts eqb keys = fold_left (group_step eqb) keys [].
Proof. reflexivity. Qed.

Lemma add_key_keys : forall k acc,
  map fst (add_key eqb k acc)
  = if existsb (eqb k) (map fst acc) then map fst acc else map fst acc ++ [k].
Proof.
  intros k acc; induction acc as [|[k' n] acc IH]; [reflexivity|].
  cbn [add_key map fst existsb]; destruct (eqb k k'); [reflexivity|].
  cbn [map fst]; rewrite IH; destruct (existsb (eqb k) (map fst acc)); reflexivity.
Qed.

Lemma add_key_positive : forall k acc,
  Forall (fun kn => (1 <= snd kn)%nat) acc -> Forall (fun kn => (1 <= snd kn)%nat) (add_key eqb k acc).
Proof.
  intros k acc; induction acc as [|[k' n] acc IH]; intros H.
  - repeat constructor.
  - inversion H as [|? ? Hn Hacc]; subst; cbn [add_key].
    destruct (eqb k k'); constructor; simpl in *; auto; lia.
Qed.

Lemma group_fold_keys : forall keys acc k,
  In k (map fst (fold_left (group_step eqb) keys acc)) -> In k (map fst acc) \/ In (Some k) keys.
Proof.
  induction keys as [|ok keys IH]; intros acc k Hk; [left; exact Hk|].
  simpl in Hk; destruct (IH _ _ Hk) as [H|H]; [|right; right; exact H].
  destruct ok as [k'|]; [|left; exact H].
  simpl in H; rewrite add_key_keys in H.
  destruct (existsb (eqb k') (map fst acc)); [left; exact H|].
  apply in_app_or in H as [H|[<-|[]]]; [left; exact H | right; left; reflexivity].
Qed.

Lemma group_fold_positive : forall keys acc,
  Forall (fun kn => (1 <= snd kn)%nat) acc ->
  Forall (fun kn => (1 <= snd kn)%nat) (fold_left (group_step eqb) keys acc).
Proof.
  induction keys as [|[k|] keys IH]; intros acc H; simpl; auto.
  apply IH, add_key_positive, H.
Qed.

Hypothesis eqb_eq : forall a b, eqb a b = true <-> a = b.

Lemma NoDup_snoc : forall (l : list K) k, NoDup l -> ~ In k l -> NoDup (l ++ [k]).
Proof.
  intros l k Hl Hk.
  rewrite <- (rev_involutive (l ++ [k])); apply NoDup_rev.
  rewrite rev_app_distr; simpl; constructor.
  - rewrite <- in_rev; exact Hk.
  - apply NoDup_rev; exact Hl.
Qed.

Lemma group_fold_nodup : forall keys acc,
  NoDup (map fst acc) -> NoDup (map fst (fold_left (group_step eqb) keys acc)).
Proof.
  induction keys as [|[k|] keys IH]; intros acc H; simpl; auto.
  apply IH; rewrite add_key_keys.
  destruct (existsb (eqb k) (map fst acc)) eqn:E; [exact H|].
  apply NoDup_snoc; [exact H|].
  intro Hin; assert (existsb (eqb k) (map fst acc) = true) as Hx
    by (apply existsb_exists; exists k; split; [exact Hin | apply eqb_eq; reflexivity]).
  rewrite Hx in E; discriminate E.
Qed.

Lemma count_of_add_key : forall k k' acc,
  count_of eqb k (add_key eqb k' acc)
  = if eqb k k' then S (count_of eqb k acc) else count_of eqb k acc.
Proof.
  intros k k' acc; induction acc as [|[k'' n] acc IH].
  - unfold count_of; simpl; destruct (eqb k k'); reflexivity.
  - cbn [add_key].
    destruct (eqb k' k'') eqn:E1; apply eqb_eq in E1 || idtac.
    + subst k''; unfold count_of; simpl.
      destruct (eqb k k'); reflexivity.
    + unfold count_of in *; simpl.
      destruct (eqb k k'') eqn:E2; [|exact IH].
      apply eqb_eq in E2; subst k''.
      destruct (eqb k k') eqn:E3; [|reflexivity].
      apply eqb_eq in E3; subst k'.
      rewrite (proj2 (eqb_eq k k) eq_refl) in E1; discriminate E1.
Qed.

Lemma count_of_group_fold : forall k keys acc,
  count_of eqb k (fold_left (group_step eqb) keys acc) = (count_of eqb k acc + count_key eqb k keys)%nat.
Proof.
  intros k; induction keys as [|[k'|] keys IH]; intros acc; simpl.
  - lia.
  - rewrite IH, count_of_add_key; destruct (eqb k k'); lia.
  - apply IH.
Qed.

End GroupCounts.

Lemma count_key_map : forall {A K} (eqb : K -> K -> bool) k (f : A -> option K) l,
  count_key eqb k (map f l)
  = List.length (filter (fun x => match f x with Some k' => eqb k k' | None => false end) l).
Proof.
  intros A K eqb k f l; induction l as [|x l IH]; [reflexivity|].
  simpl; destruct (f x) as [k'|]; [destruct (eqb k k'); simpl|]; rewrite IH; reflexivity.
Qed.


Lemma count_of_group_counts : forall {K} (eqb : K -> K -> bool),
  (forall a b, eqb a b = true <-> a = b) ->
  forall k keys, count_of eqb k (group_counts eqb keys) = count_key eqb k keys.
Proof.
  intros K eqb Heq k keys; rewrite group_counts_fold, count_of_group_fold by exact Heq.
  reflexivity.
Qed.

Lemma group_counts_shape : forall {K} (eqb : K -> K -> bool),
  (forall a b, eqb a b = true <-> a = b) ->
  forall keys, NoDup (map fst (group_counts eqb keys))
  /\ Forall (fun kn => (1 <= snd kn)%nat) (group_counts eqb keys).
Proof.
  intros K eqb Heq keys; rewrite group_counts_fold; split.
  - apply group_fold_nodup; [exact Heq | constructor].
  - apply group_fold_positive; constructor.
Qed.

Lemma group_counts_keys : forall {K} (eqb : K -> K -> bool) keys k n,
  In (k, n) (group_counts eqb keys) -> In (Some k) keys.
Proof.
  intros K eqb keys k n H; rewrite group_counts_fold in H.
  destruct (group_fold_keys eqb keys [] k) as [[]|H']; [|exact H'].
  apply in_map_iff; exists (k, n); auto.
Qed.

Lemma filter_rows_incl : forall df sel r, In r (filter_rows df sel) -> In r df.
Proof.
  intros df sel r; unfold filter_rows.
  destruct (negb _); [intro H; apply filter_In in H as [H _]; exact H | auto].
Qed.

(** ** The properties *)


(** X1: [time_range] is total on all integers: it always returns one of its
    eight labels, returns ['Unknown'] exactly for the negative hours, and
    puts every hour from 24 upwards into the last bucket ['9pm-12am']. *)
Theorem time_range_all_integers : forall h,
  In (time_range h) time_range_labels
  /\ (time_range h = Unknown <-> h < 0)
  /\ (24 <= h -> time_range h = py "9pm-12am").
Proof. exact time_range_cases. Qed.

Lemma time_range_all_integers_witness :
  24 <= 30 /\ time_range 30 = py "9pm-12am".
Proof.
  assert (H : 24 <= 30) by lia.
  exact (conj H (proj2 (proj2 (time_range_all_integers 30)) H)).
Defined.

(** X2: in every derived row the hour lies in [-1, 23], and the three time
    columns agree on a missing time: the standardised time is ['Unknown']
    exactly when the hour is -1, and the time range is ['Unknown'] exactly
    when the hour is -1. *)
Theorem derived_time_columns_agree : forall (F : Type) (guess : list cell -> F)
    (parse : F -> cell -> option date) (df : list raw_row) (r : row),
  In r (derive F guess parse df) ->
  -1 <= r_incident_hour r <= 23
  /\ (r_standardized_time r = Unknown <-> r_incident_hour r = -1)
  /\ (r_time_range r = Unknown <-> r_incident_hour r = -1).
Proof. exact derived_row_times. Qed.

Lemma derived_time_columns_agree_witness :
  let r := derive_row ts_date_format ts_parse tt
             (mk_raw_row (CTimestamp 2024 3 9 0 0 0) (CStr (py "lunch-break"))
                (CStr (py "Vandalism")) []) in
  In r scenario_df
  /\ -1 <= r_incident_hour r <= 23
  /\ (r_standardized_time r = Unknown <-> r_incident_hour r = -1)
  /\ (r_time_range r = Unknown <-> r_incident_hour r = -1).
Proof.
  intros r.
  assert (Hin : In r scenario_df) by (right; right; left; reflexivity).
  exact (conj Hin (derived_time_columns_agree _ ts_guess ts_parse scenario r Hin)).
Defined.

(** X3: [standardize_time] gives the same result for a string and for that
    string padded on either side with whitespace (spaces, tabs, newlines,
    non-breaking spaces). *)
Theorem standardize_time_ignores_padding : forall w1 s w2,
  forallb is_space w1 = true -> forallb is_space w2 = true ->
  standardize_time (CStr (w1 ++ s ++ w2)) = standardize_time (CStr s).
Proof.
  intros w1 s w2 H1 H2.
  cbv [standardize_time standardize_time_body isnull py_strip bind].
  rewrite strip_pad by assumption; reflexivity.
Qed.

Lemma standardize_time_ignores_padding_witness :
  forallb is_space [" "; ascii_of_nat 9] = true /\ forallb is_space [nbsp; nl] = true
  /\ standardize_time (CStr ([" "; ascii_of_nat 9] ++ py "7:45PM" ++ [nbsp; nl]))
     = standardize_time (CStr (py "7:45PM")).
Proof.
  assert (H1 : forallb is_space [" "; ascii_of_nat 9] = true) by reflexivity.
  assert (H2 : forallb is_space [nbsp; nl] = true) by reflexivity.
  exact (conj H1 (conj H2 (standardize_time_ignores_padding _ _ _ H1 H2))).
Defined.

(** X4: every valid 24-hour input [H:MM] or [HH:MM] (hour 0 to 23, with or
    without a leading zero, minute 0 to 59 on two digits) is standardised
    to [HH:MM:00] with the same hour and minute. *)
Theorem twentyfour_hour_inputs : forall (pad : bool) h m,
  0 <= h <= 23 -> 0 <= m <= 59 ->
  standardize_time (CStr ((if pad then two_digits h else dec h) ++ py ":" ++ two_digits m))
  = hms_str h m 0.
Proof.
  intros pad h m Hh Hm.
  assert (Hall : forallb (fun pad => forallb (fun h => forallb (twentyfour_ok pad h)
                   (zrange 0 60)) (zrange 0 24)) [true; false] = true)
    by (vm_compute; reflexivity).
  rewrite forallb_forall in Hall.
  specialize (Hall pad ltac:(destruct pad; simpl; auto)).
  pose proof (zrange_forall _ _ _ Hall h ltac:(simpl; lia)) as Hh'.
  pose proof (zrange_forall _ _ _ Hh' m ltac:(simpl; lia)) as Hok.
  apply str_eqb_eq in Hok; exact Hok.
Qed.

Lemma twentyfour_hour_inputs_witness :
  0 <= 7 <= 23 /\ 0 <= 5 <= 59
  /\ standardize_time (CStr (dec 7 ++ py ":" ++ two_digits 5)) = hms_str 7 5 0.
Proof.
  assert (H1 : 0 <= 7 <= 23) by lia.
  assert (H2 : 0 <= 5 <= 59) by lia.
  exact (conj H1 (conj H2 (twentyfour_hour_inputs false 7 5 H1 H2))).
Defined.

(** X5: a 12-hour time written with a space before its marker ([H:MM am],
    hour 1 to 12, minute on two digits, marker in any case) is never
    parsed: the format ['%I:%M%p'] has no space, so the result is
    ['Unknown']. *)
Theorem spaced_meridiem_unknown : forall h m mer,
  1 <= h <= 12 -> 0 <= m <= 59 -> In mer meridiems ->
  standardize_time (CStr (dec h ++ py ":" ++ two_digits m ++ py " " ++ mer)) = Unknown.
Proof.
  intros h m mer Hh Hm Hmer.
  assert (Hall : forallb (fun mer => forallb (fun h => forallb (spaced_meridiem_ok mer h)
                   (zrange 0 60)) (zrange 1 12)) meridiems = true)
    by (vm_compute; reflexivity).
  rewrite forallb_forall in Hall; specialize (Hall mer Hmer).
  pose proof (zrange_forall _ _ _ Hall h ltac:(simpl; lia)) as Hh'.
  pose proof (zrange_forall _ _ _ Hh' m ltac:(simpl; lia)) as Hok.
  apply str_eqb_eq in Hok; exact Hok.
Qed.

Lemma spaced_meridiem_unknown_witness :
  1 <= 2 <= 12 /\ 0 <= 30 <= 59 /\ In (py "PM") meridiems
  /\ standardize_time (CStr (dec 2 ++ py ":" ++ two_digits 30 ++ py " " ++ py "PM"))
     = Unknown.
Proof.
  assert (H1 : 1 <= 2 <= 12) by lia.
  assert (H2 : 0 <= 30 <= 59) by lia.
  assert (H3 : In (py "PM") meridiems) by (simpl; auto).
  exact (conj H1 (conj H2 (conj H3 (spaced_meridiem_unknown 2 30 _ H1 H2 H3)))).
Defined.

(** X6: cleaning and renaming the headers a second time changes nothing. *)
Theorem normalize_columns_idempotent : forall hs,
  normalize_columns (normalize_columns hs) = normalize_columns hs.
Proof.
  intros hs; unfold normalize_columns; rewrite !map_map.
  apply map_ext; intros h; unfold rename_column at 2 3.
  destruct (dict_get (clean_header h) rename_mapping) as [v|] eqn:E.
  - destruct (rename_values_fixed _ _ (dict_get_in _ _ _ E)) as [H1 H2].
    rewrite H1; exact H2.
  - rewrite clean_header_idem; unfold rename_column; rewrite E; reflexivity.
Qed.

(** X7: no header is ever renamed to ['Patron 2 Email']: the only key of
    [rename_mapping] with that value ends in a space, and a cleaned header
    never does. *)
Theorem patron2_email_never_renamed : forall h,
  dict_get (clean_header h) rename_mapping <> Some (py "Patron 2 Email").
Proof.
  intros h E; apply dict_get_in in E.
  assert (Hall : forallb (fun kv => negb (str_eqb (snd kv) (py "Patron 2 Email"))
                                    || negb (no_edge_space (fst kv))) rename_mapping = true)
    by (vm_compute; reflexivity).
  rewrite forallb_forall in Hall; specialize (Hall _ E); simpl fst in Hall; simpl snd in Hall.
  rewrite (clean_header_edges h) in Hall.
  vm_compute in Hall; discriminate Hall.
Qed.

Lemma patron2_email_never_renamed_witness :
  dict_get (clean_header (py "Patron (2) Email Address ")) rename_mapping
  <> Some (py "Patron 2 Email").
Proof. exact (patron2_email_never_renamed (py "Patron (2) Email Address ")). Defined.

(** X8: the regular-expression substitution of the type counts leaves a
    type without an opening parenthesis unchanged. *)
Theorem sub_parens_no_paren : forall s, (forall c, In c s -> c <> "(") ->
  sub_parens s = s.
Proof. intros s Hs; apply sub_parens_fuel_no_paren; exact Hs. Qed.

Lemma sub_parens_no_paren_witness :
  (forall c, In c (py "Theft") -> c <> "(") /\ sub_parens (py "Theft") = py "Theft".
Proof.
  assert (H : forall c, In c (py "Theft") -> c <> "(").
  { intros c Hc; repeat (destruct Hc as [<-|Hc]; [discriminate|]); destruct Hc. }
  exact (conj H (sub_parens_no_paren _ H)).
Defined.

(** X9: the substitution removes a parenthesised group together with the
    whitespace before it: for a text [s] with no [(] that does not end in
    whitespace, [s ++ w ++ "(" ++ q ++ ")" ++ t] becomes [s] followed by the
    substitution applied to [t], when [w] is whitespace and [q] has no [)]
    and no newline. *)
Theorem sub_parens_drops_group : forall s w q t,
  (forall c, In c s -> c <> "(") -> (s = [] \/ is_space (last s " ") = false) ->
  forallb is_space w = true -> (forall c, In c q -> c <> ")" /\ c <> nl) ->
  sub_parens (s ++ w ++ "(" :: q ++ ")" :: t) = s ++ sub_parens t.
Proof.
  intros s w q t Hs Hlast Hw Hq; unfold sub_parens at 1.
  rewrite length_app, sub_parens_fuel_prefix by assumption.
  f_equal.
  rewrite length_app; simpl (List.length ("(" :: _)).
  rewrite Nat.add_succ_r, sub_parens_step with (rest := t)
    by (apply paren_group_match; assumption).
  apply sub_parens_fuel_enough; rewrite ?length_app; simpl; lia.
Qed.

Lemma sub_parens_drops_group_witness :
  (forall c, In c (py "Theft") -> c <> "(")
  /\ (py "Theft" = [] \/ is_space (last (py "Theft") " ") = false)
  /\ forallb is_space (py " ") = true
  /\ (forall c, In c (py "minor") -> c <> ")" /\ c <> nl)
  /\ sub_parens (py "Theft" ++ py " " ++ "(" :: py "minor" ++ ")" :: [])
     = py "Theft" ++ sub_parens [].
Proof.
  assert (H1 : forall c, In c (py "Theft") -> c <> "(").
  { intros c Hc; repeat (destruct Hc as [<-|Hc]; [discriminate|]); destruct Hc. }
  assert (H2 : py "Theft" = [] \/ is_space (last (py "Theft") " ") = false)
    by (right; reflexivity).
  assert (H3 : forallb is_space (py " ") = true) by reflexivity.
  assert (H4 : forall c, In c (py "minor") -> c <> ")" /\ c <> nl).
  { intros c Hc; repeat (destruct Hc as [<-|Hc]; [split; discriminate|]); destruct Hc. }
  exact (conj H1 (conj H2 (conj H3 (conj H4 (sub_parens_drops_group _ _ _ _ H1 H2 H3 H4))))).
Defined.

(** X10: filtering the rows twice with the same selection gives the rows of
    one filtering, and a filtering never adds rows. *)
Theorem filter_rows_idempotent : forall df sel,
  filter_rows (filter_rows df sel) sel = filter_rows df sel
  /\ (List.length (filter_rows df sel) <= List.length df)%nat.
Proof.
  intros df sel; unfold filter_rows.
  destruct (negb (str_eqb sel (py "All"))); [|split; [reflexivity | lia]].
  split; [|apply filter_length_le].
  induction df as [|r df IH]; [reflexivity|].
  simpl; destruct (cell_eq_str (r_incident_type r) sel) eqn:E; simpl.
  - rewrite E, IH; reflexivity.
  - exact IH.
Qed.

(** X11: the dropdown's incident types are present values of the column, each
    the type of some row; every row with a present type is represented by an
    equal entry; and no entry equals an earlier one. *)
Theorem incident_types_unique : forall df,
  (forall c, In c (incident_types df) ->
     isnull c = false /\ exists r, In r df /\ r_incident_type r = c)
  /\ (forall r, In r df -> isnull (r_incident_type r) = false ->
        exists c, In c (incident_types df) /\ cell_eqb (r_incident_type r) c = true)
  /\ ForallOrdPairs (fun a b => cell_eqb b a = false) (incident_types df).
Proof.
  intros df; split; [|split].
  - intros c Hc; destruct (incident_types_in df c Hc) as [Hn Hin].
    apply in_map_iff in Hin as [r [Hr Hin]]; split; [exact Hn|]; exists r; auto.
  - intros r Hr Hn; apply unique_fold_covers; [apply in_map; exact Hr | exact Hn].
  - apply unique_fold_distinct; constructor.
Qed.

Lemma incident_types_unique_witness :
  let r := derive_row ts_date_format ts_parse tt
             (mk_raw_row (CTimestamp 2024 3 5 0 0 0) (CStr (py "2:15pm"))
                (CStr (py "Theft")) []) in
  In r scenario_df /\ isnull (r_incident_type r) = false
  /\ exists c, In c (incident_types scenario_df) /\ cell_eqb (r_incident_type r) c = true.
Proof.
  intros r.
  assert (Hr : In r scenario_df) by (left; reflexivity).
  assert (Hn : isnull (r_incident_type r) = false) by reflexivity.
  exact (conj Hr (conj Hn (proj1 (proj2 (incident_types_unique scenario_df)) _ Hr Hn))).
Defined.

(** X12: selecting a string offered by the dropdown never gives an empty set
    of rows. *)
Theorem dropdown_options_nonempty : forall df s,
  In (CStr s) (incident_types df) -> filter_rows df s <> [].
Proof.
  intros df s Hs.
  destruct (incident_types_in df _ Hs) as [_ Hin].
  apply in_map_iff in Hin as [r [Hr Hin]].
  unfold filter_rows; destruct (negb (str_eqb s (py "All"))).
  - intro E; assert (In r (filter (fun r => cell_eq_str (r_incident_type r) s) df)) as H.
    { apply filter_In; split; [exact Hin|]; apply cell_eq_str_iff; exact Hr. }
    rewrite E in H; destruct H.
  - intro E; rewrite E in Hin; destruct Hin.
Qed.

Lemma dropdown_options_nonempty_witness :
  In (CStr (py "Theft (minor)")) (incident_types scenario_df)
  /\ filter_rows scenario_df (py "Theft (minor)") <> [].
Proof.
  assert (H : In (CStr (py "Theft (minor)")) (incident_types scenario_df))
    by (vm_compute; right; left; reflexivity).
  exact (conj H (dropdown_options_nonempty _ _ H)).
Defined.



(** X15: each count shown for an hour, a time range, a weekday or a cleaned
    incident type is the number of selected rows with that value (0 for a
    value that is not listed); types that differ only by parenthesised text
    are counted together. *)
Theorem chart_counts_per_key : forall df sel k l d t,
  let rows := filter_rows df sel in
  let g := update_graphs df sel in
  count_of Z.eqb k (g_hour_counts g)
    = List.length (filter (fun r => Z.eqb k (r_incident_hour r)) rows)
  /\ count_of str_eqb l (g_range_counts g)
    = List.length (filter (fun r => str_eqb l (r_time_range r)) rows)
  /\ count_of str_eqb d (g_day_counts g)
    = List.length (filter (fun r => match r_day_of_week r with
                                    | Some d' => str_eqb d d' | None => false end) rows)
  /\ count_of str_eqb t (g_type_counts g)
    = List.length (filter (fun r => match clean_type (r_incident_type r) with
                                    | Some t' => str_eqb t t' | None => false end) rows).
Proof.
  intros df sel k l d t rows g; unfold g, update_graphs, graphs_of; fold rows.
  cbn [g_hour_counts g_range_counts g_day_counts g_type_counts].
  rewrite !count_of_group_counts by (exact Z.eqb_eq || exact str_eqb_eq).
  rewrite !count_key_map; repeat split.
Qed.

(** X16: in each of the four grouped figures every value is listed once,
    with a count of at least one. *)
Theorem chart_keys_distinct : forall df sel,
  let g := update_graphs df sel in
  NoDup (map fst (g_type_counts g)) /\ NoDup (map fst (g_hour_counts g))
  /\ NoDup (map fst (g_range_counts g)) /\ NoDup (map fst (g_day_counts g))
  /\ Forall (fun kn => (1 <= snd kn)%nat) (g_type_counts g)
  /\ Forall (fun kn => (1 <= snd kn)%nat) (g_hour_counts g)
  /\ Forall (fun kn => (1 <= snd kn)%nat) (g_range_counts g)
  /\ Forall (fun kn => (1 <= snd kn)%nat) (g_day_counts g).
Proof.
  intros df sel g; unfold g, update_graphs, graphs_of.
  cbn [g_hour_counts g_range_counts g_day_counts g_type_counts].
  destruct (group_counts_shape _ str_eqb_eq (map (fun r => clean_type (r_incident_type r))
              (filter_rows df sel))) as [A1 A2].
  destruct (group_counts_shape _ Z.eqb_eq (map (fun r => Some (r_incident_hour r))
              (filter_rows df sel))) as [B1 B2].
  destruct (group_counts_shape _ str_eqb_eq (map (fun r => Some (r_time_range r))
              (filter_rows df sel))) as [C1 C2].
  destruct (group_counts_shape _ str_eqb_eq (map r_day_of_week (filter_rows df sel)))
    as [D1 D2].
  repeat split; assumption.
Qed.

(** X17: on derived data the hour figure lists only hours from -1 to 23, the
    time-range figure only the eight labels of [time_range], and the weekday
    figure only the seven weekday names. *)
Theorem derived_chart_keys : forall (F : Type) (guess : list cell -> F)
    (parse : F -> cell -> option date) (df : list raw_row) (sel : str),
  let g := update_graphs (derive F guess parse df) sel in
  (forall k n, In (k, n) (g_hour_counts g) -> -1 <= k <= 23)
  /\ (forall l n, In (l, n) (g_range_counts g) -> In l time_range_labels)
  /\ (forall d n, In (d, n) (g_day_counts g) -> In d day_order).
Proof.
  intros F guess parse df sel g; unfold g, update_graphs, graphs_of.
  cbn [g_hour_counts g_range_counts g_day_counts]; split; [|split].
  - intros k n H; apply group_counts_keys in H.
    apply in_map_iff in H as [r [Hk Hr]]; injection Hk as <-.
    apply filter_rows_incl in Hr.
    exact (proj1 (derived_row_times F guess parse df r Hr)).
  - intros l n H; apply group_counts_keys in H.
    apply in_map_iff in H as [r [Hl Hr]]; injection Hl as <-.
    apply filter_rows_incl in Hr.
    unfold derive in Hr; apply in_map_iff in Hr as [raw [<- _]].
    apply time_range_cases.
  - intros d n H; apply group_counts_keys in H.
    apply in_map_iff in H as [r [Hd Hr]].
    apply filter_rows_incl in Hr.
    exact (proj2 (day_of_week_in_order F guess parse df r Hr) d Hd).
Qed.

Lemma derived_chart_keys_witness :
  In (py "Saturday", 1%nat) (g_day_counts (update_graphs scenario_df (py "All")))
  /\ In (py "Saturday") day_order.
Proof.
  assert (H : In (py "Saturday", 1%nat) (g_day_counts (update_graphs scenario_df (py "All"))))
    by (vm_compute; right; left; reflexivity).
  exact (conj H (proj2 (proj2 (derived_chart_keys _ ts_guess ts_parse scenario (py "All")))
                   _ _ H)).
Defined.

(** X18: a derived row has a weekday exactly when its date was parsed, and
    that weekday is one of the seven names of the figure's order. *)
Theorem derived_day_of_week : forall (F : Type) (guess : list cell -> F)
    (parse : F -> cell -> option date) (df : list raw_row) (r : row),
  In r (derive F guess parse df) ->
  (r_day_of_week r = None <-> r_date r = None)
  /\ forall d, r_day_of_week r = Some d -> In d day_order.
Proof. exact day_of_week_in_order. Qed.

Lemma derived_day_of_week_witness :
  let r := derive_row ts_date_format ts_parse tt
             (mk_raw_row CNull (CStr (py "08:30")) (CStr (py "Theft (minor)")) []) in
  In r scenario_df
  /\ (r_day_of_week r = None <-> r_date r = None)
  /\ (forall d, r_day_of_week r = Some d -> In d day_order).
Proof.
  intros r.
  assert (Hin : In r scenario_df) by (right; left; reflexivity).
  exact (conj Hin (derived_day_of_week _ ts_guess ts_parse scenario r Hin)).
Defined.
